(** * Lineup reconstruction of [pvd_Sofascore.py]

    A shallow embedding of [determine_position], [create_team_df] and
    [get_lineups_from_events], with the Python and pandas primitives they
    rely on, and the properties of the lineup specification checked
    against them. *)

From Stdlib Require Import ZArith List String Ascii Bool Lia QArith.
From Stdlib Require Import Decimal DecimalString DecimalZ DecimalPos.
Import ListNotations.

Local Open Scope string_scope.
Local Open Scope list_scope.
Local Open Scope Z_scope.

(** ** Python primitives *)

Module Py.

(** Exceptions the lineup code can raise; all derive from [Exception]. *)
Inductive exn : Type :=
| ValueError
| IndexError
| KeyError
| UnboundLocalError
| RequestException.

(** A computation that returns or raises. *)
Inductive result (A : Type) : Type :=
| Ok (a : A)
| Raise (e : exn).
Arguments Ok {A} a.
Arguments Raise {A} e.

Definition bind {A B} (m : result A) (k : A -> result B) : result B :=
  match m with
  | Ok a => k a
  | Raise e => Raise e
  end.

(** [str(z)], as used by an f-string field [{z}] on an [int]. *)
Definition str (z : Z) : string := NilZero.string_of_int (Z.to_int z).

(** [s.split(sep)] for a one-character separator: never returns the
    empty list, [''.split('-') == ['']]. *)
Fixpoint split (sep : ascii) (s : string) : list string :=
  match s with
  | EmptyString => [EmptyString]
  | String c r =>
      if Ascii.eqb c sep then EmptyString :: split sep r
      else match split sep r with
           | g :: gs => String c g :: gs
           | [] => [String c EmptyString]
           end
  end.

(** ASCII characters for which [str.isspace] holds. *)
Definition isspace (c : ascii) : bool :=
  let n := nat_of_ascii c in
  ((9 <=? n) && (n <=? 13) || (28 <=? n) && (n <=? 32))%nat.

Definition isdigit (c : ascii) : bool :=
  let n := nat_of_ascii c in ((48 <=? n) && (n <=? 57))%nat.

Definition digit_val (c : ascii) : Z := Z.of_nat (nat_of_ascii c) - 48.

Fixpoint lstrip (s : string) : string :=
  match s with
  | String c r => if isspace c then lstrip r else s
  | EmptyString => EmptyString
  end.

Fixpoint rstrip (s : string) : string :=
  match s with
  | EmptyString => EmptyString
  | String c r =>
      match rstrip r with
      | EmptyString => if isspace c then EmptyString else String c EmptyString
      | r' => String c r'
      end
  end.

(** Digits of an integer literal: underscores are allowed, one at a time,
    between two digits. [prev] tells whether the previous character was a
    digit. *)
Fixpoint int_digits (prev : bool) (acc : Z) (s : string) : result Z :=
  match s with
  | EmptyString => if prev then Ok acc else Raise ValueError
  | String c r =>
      if isdigit c then int_digits true (10 * acc + digit_val c) r
      else if Ascii.eqb c "_" && prev then int_digits false acc r
      else Raise ValueError
  end.

(** [int(s)] on an ASCII string in base 10: surrounding white space is
    dropped, one sign is allowed, anything else raises [ValueError].
    (Non-ASCII digits and the interpreter's limit on the number of digits
    are outside this model.) *)
Definition int (s : string) : result Z :=
  match rstrip (lstrip s) with
  | String c r =>
      if Ascii.eqb c "+" then int_digits false 0 r
      else if Ascii.eqb c "-" then
        bind (int_digits false 0 r) (fun z => Ok (- z))
      else int_digits false 0 (String c r)
  | EmptyString => Raise ValueError
  end.

(** [l[i]] for [i >= 0] and [l[-1]]. *)
Definition index {A} (l : list A) (i : nat) : result A :=
  match nth_error l i with
  | Some a => Ok a
  | None => Raise IndexError
  end.

Definition index_last {A} (l : list A) : result A :=
  index (List.rev l) 0.

(** [s[-2:]]: the last two characters, or all of a shorter string. *)
Definition last_two (s : string) : string :=
  String.substring (String.length s - 2) 2 s.

(** [needle in hay] for strings. *)
Fixpoint contains (needle hay : string) : bool :=
  String.prefix needle hay
  || match hay with
     | EmptyString => false
     | String _ r => contains needle r
     end.

(** [x in l] and [x not in l] for a list of strings. *)
Definition mem (x : string) (l : list string) : bool :=
  existsb (String.eqb x) l.

(** [s.rstrip(c)] for a one-character argument. *)
Fixpoint rstrip_char (c : ascii) (s : string) : string :=
  match s with
  | EmptyString => EmptyString
  | String a r =>
      match rstrip_char c r with
      | EmptyString => if Ascii.eqb a c then EmptyString
                       else String a EmptyString
      | r' => String a r'
      end
  end.

(** [s.endswith(suffix)]. *)
Fixpoint endswith (suffix s : string) : bool :=
  String.eqb s suffix
  || match s with
     | EmptyString => false
     | String _ r => endswith suffix r
     end.

(** [s.replace(a, b)] for one-character [a] and [b]. *)
Fixpoint replace_char (a b : ascii) (s : string) : string :=
  match s with
  | EmptyString => EmptyString
  | String c r =>
      String (if Ascii.eqb c a then b else c) (replace_char a b r)
  end.

Definition islower (c : ascii) : bool :=
  let n := nat_of_ascii c in ((97 <=? n) && (n <=? 122))%nat.

Definition isupper (c : ascii) : bool :=
  let n := nat_of_ascii c in ((65 <=? n) && (n <=? 90))%nat.

Definition upper (c : ascii) : ascii :=
  if islower c then ascii_of_nat (nat_of_ascii c - 32) else c.

Definition lower (c : ascii) : ascii :=
  if isupper c then ascii_of_nat (nat_of_ascii c + 32) else c.

(** [s.title()] on ASCII: a letter after an uncased character is made
    upper case, a letter after a letter lower case. *)
Fixpoint title_from (previous_is_cased : bool) (s : string) : string :=
  match s with
  | EmptyString => EmptyString
  | String c r =>
      String (if previous_is_cased then lower c else upper c)
             (title_from (islower c || isupper c) r)
  end.

Definition title (s : string) : string := title_from false s.

(** [s.split(sep)] for a separator of one or more characters; [skip]
    characters of a separator just found are still to be dropped. *)
Fixpoint split_str_from (sep : string) (skip : nat) (s : string)
  : list string :=
  match s with
  | EmptyString => [EmptyString]
  | String c r =>
      match skip with
      | S k => split_str_from sep k r
      | O =>
          if String.prefix sep s then
            EmptyString :: split_str_from sep (String.length sep - 1) r
          else match split_str_from sep 0 r with
               | g :: gs => String c g :: gs
               | [] => [String c EmptyString]
               end
      end
  end.

Definition split_str (sep s : string) : list string :=
  split_str_from sep 0 s.

(** [l[-2]]. *)
Definition index_before_last {A} (l : list A) : result A :=
  index (List.rev l) 1.

End Py.

Import Py.

Notation "x <- m ;; k" := (Py.bind m (fun x => k))
  (at level 61, m at next level, right associativity).

(** ** [determine_position] *)

(** The three results [line, lat, pos]; [None] is Python's [None]. *)
Definition position : Type := option string * option string * option string.

Definition line_of (p : position) : option string := fst (fst p).
Definition lat_of (p : position) : option string := snd (fst p).
Definition pos_of (p : position) : option string := snd p.

(** The f-string [f'{k}/{n}']. *)
Definition lat_str (k n : Z) : string := (Py.str k ++ "/" ++ Py.str n)%string.

Definition determine_position
    (order def_count mid_0_count mid_1_count mid_2_count ata_count : Z)
    (substitute : bool) : position :=
  let home_por := 1 in
  if order =? home_por then
    (Some "por", Some "1/1", Some "POR")
  else if order <=? home_por + def_count then
    (Some "def", Some (lat_str (order - home_por) def_count), Some "DEF")
  else if order <=? home_por + def_count + mid_0_count then
    (Some "mid_0",
     Some (lat_str (order - home_por - def_count) mid_0_count),
     Some "MED")
  else if order <=? home_por + def_count + mid_0_count + mid_1_count then
    (Some "mid_1",
     Some (lat_str (order - home_por - def_count - mid_0_count) mid_1_count),
     Some "MED")
  else if order <=? home_por + def_count + mid_0_count + mid_1_count
                    + mid_2_count then
    (Some "mid_2",
     Some (lat_str (order - home_por - def_count - mid_0_count - mid_1_count)
             mid_2_count),
     Some "MED")
  else if order <=? home_por + def_count + mid_0_count + mid_1_count
                    + mid_2_count + ata_count then
    (Some "ata",
     Some (lat_str (order - home_por - def_count - mid_0_count - mid_1_count
                    - mid_2_count) ata_count),
     Some "ATA")
  else if (11 <? order) && substitute then
    (None, None, Some "SUS")
  else if (11 <? order) && negb substitute then
    (None, None, Some "RES")
  else
    (None, None, None).



(** ** pandas primitives

    A frame is the list of its rows, in index order. *)

Module Pd.

(** [pd.concat(frames, ignore_index=True)]: raises [ValueError]
    ("No objects to concatenate") on an empty list of frames. *)
Definition concat {A} (frames : list (list A)) : result (list A) :=
  match frames with
  | [] => Raise ValueError
  | _ => Ok (List.concat frames)
  end.

(** [pd.merge(left, right, on=key, how='left')]: every left row, in order,
    paired with each right row of equal key, in order; a left row without a
    match is kept once with missing right columns. *)
Definition merge_left {L R} (key_l : L -> Z) (key_r : R -> Z)
    (left : list L) (right : list R) : list (L * option R) :=
  flat_map
    (fun l =>
       match filter (fun r => key_r r =? key_l l) right with
       | [] => [(l, None)]
       | matches => map (fun r => (l, Some r)) matches
       end)
    left.

End Pd.

(** ** Data of one match *)

(** One entry of [lineups[side]['players']]; [position] and the
    [statistics.minutesPlayed] entry may be absent. *)
Record player : Type := {
  name : string;
  id : Z;
  shirtNumber : Z;
  position_key : option string;
  substitute : bool;
  minutesPlayed : option Z
}.

(** One entry of [average_positions[side]]; also a row
    [[avg_id, averageX, averageY, pointsCount]] of the average frame. *)
Record avg_player : Type := {
  avg_player_id : Z;
  avg_averageX : Q;
  avg_averageY : Q;
  avg_pointsCount : Z
}.

(** A row [[name, id, jersey, position, substitute, minutes, order, line,
    lat, pos]]. *)
Record lineup_row : Type := {
  r_player : string;
  r_id : Z;
  r_jersey : Z;
  r_position : string;
  r_substitute : bool;
  r_minutes : Z;
  r_order : Z;
  r_line : option string;
  r_lat : option string;
  r_pos : option string
}.

(** A row of [home_df] / [away_df]: the lineup row and the team columns. *)
Record team_row : Type := {
  t_row : lineup_row;
  t_local : string;
  t_team : string;
  t_formation : string;
  t_defense : Z;
  t_midfield : Z;
  t_attack : Z
}.

(** A row of [df_merged]; the average columns are missing ([None]) when
    the merge found no partner. *)
Definition merged_row : Type := (team_row * option avg_player)%type.

Definition m_id (m : merged_row) : Z := r_id (t_row (fst m)).
Definition m_averageX (m : merged_row) : option Q :=
  option_map avg_averageX (snd m).
Definition m_averageY (m : merged_row) : option Q :=
  option_map avg_averageY (snd m).
Definition m_pointsCount (m : merged_row) : option Z :=
  option_map avg_pointsCount (snd m).

(** The five group sizes read off a formation string. *)
Record counts : Type := {
  n_def : Z;
  n_mid_0 : Z;
  n_mid_1 : Z;
  n_mid_2 : Z;
  n_ata : Z
}.

(** What one side of a finished event delivers. *)
Record side : Type := {
  formation : string;
  players : list player;
  average_positions : list avg_player;
  shortName : string
}.

(** What the three requests for one event deliver: a request or a key
    lookup raised, the match is not finished, or both sides' data. *)
Inductive event : Type :=
| Failed (e : exn)
| Unfinished
| Finished (home away : side).

(** ** Formation strings *)

(** Lines 343-354 (home) and 357-368 (away), which are the same code. *)
Definition formation_counts (formation : string) : result counts :=
  let groups_formation := Py.split "-" formation in
  d <- (g <- Py.index groups_formation 0 ;; Py.int g) ;;
  a <- (g <- Py.index_last groups_formation ;; Py.int g) ;;
  if (List.length groups_formation =? 4)%nat then
    m0 <- (g <- Py.index groups_formation 1 ;; Py.int g) ;;
    m2 <- (g <- Py.index groups_formation 2 ;; Py.int g) ;;
    Ok {| n_def := d; n_mid_0 := m0; n_mid_1 := 0; n_mid_2 := m2;
          n_ata := a |}
  else
    m1 <- (g <- Py.index groups_formation 1 ;; Py.int g) ;;
    Ok {| n_def := d; n_mid_0 := 0; n_mid_1 := m1; n_mid_2 := 0;
          n_ata := a |}.

Definition resolve (c : counts) (order : Z) (sub : bool) : position :=
  determine_position order (n_def c) (n_mid_0 c) (n_mid_1 c) (n_mid_2 c)
    (n_ata c) sub.

(** ** Rows of one team *)

Definition get_default {A} (o : option A) (d : A) : A :=
  match o with Some a => a | None => d end.

(** The row appended for the player at index [j]. *)
Definition player_row (c : counts) (j : nat) (p : player) : lineup_row :=
  let order := Z.of_nat j + 1 in
  let '(line, lat, pos) := resolve c order (substitute p) in
  {| r_player := name p; r_id := id p; r_jersey := shirtNumber p;
     r_position := get_default (position_key p) "";
     r_substitute := substitute p;
     r_minutes := get_default (minutesPlayed p) 0;
     r_order := order; r_line := line; r_lat := lat; r_pos := pos |}.

Fixpoint team_data (c : counts) (j : nat) (ps : list player)
  : list lineup_row :=
  match ps with
  | [] => []
  | p :: ps' => player_row c j p :: team_data c (S j) ps'
  end.

Definition with_team_columns (c : counts) (formation team_name local : string)
    (r : lineup_row) : team_row :=
  {| t_row := r; t_local := local; t_team := team_name;
     t_formation := formation; t_defense := n_def c;
     t_midfield := n_mid_0 c + n_mid_1 c + n_mid_2 c;
     t_attack := n_ata c |}.

(** [create_team_df]: the rows of [enumerate(players)] with the team
    columns. *)
Definition create_team_df (players : list player) (formation : string)
    (c : counts) (team_name : string) (is_home : bool) : list team_row :=
  map (with_team_columns c formation team_name
         (if is_home then "Home" else "Away"))
      (team_data c 0 players).

(** ** [get_lineups_from_events] *)

(** The function's local variables that outlive a loop iteration:
    [None] is an unbound name. *)
Record locals : Type := {
  avg_id : option Z;
  averageX : option Q;
  averageY : option Q;
  pointsCount : option Z
}.

Definition unbound : locals :=
  {| avg_id := None; averageX := None; averageY := None;
     pointsCount := None |}.

Definition load {A} (v : option A) : result A :=
  match v with
  | Some a => Ok a
  | None => Raise UnboundLocalError
  end.

(** Lines 386-391: the assignments under [if j < len(average_positions)]. *)
Definition assign_average (avgs : list avg_player) (j : nat) (st : locals)
  : locals :=
  if (j <? List.length avgs)%nat then
    match nth_error avgs j with
    | Some avg_player =>
        {| avg_id := Some (avg_player_id avg_player);
           averageX := Some (avg_averageX avg_player);
           averageY := Some (avg_averageY avg_player);
           pointsCount := Some (avg_pointsCount avg_player) |}
    | None => st
    end
  else st.

(** Line 398: the list [[avg_id, averageX, averageY, pointsCount]]. *)
Definition average_row (st : locals) : result avg_player :=
  i <- load (avg_id st) ;;
  x <- load (averageX st) ;;
  y <- load (averageY st) ;;
  n <- load (pointsCount st) ;;
  Ok {| avg_player_id := i; avg_averageX := x; avg_averageY := y;
        avg_pointsCount := n |}.

(** The loop over one side's players, from index [j] on: the lineup rows,
    the average rows, and the locals it leaves behind (also when it
    raises). *)
Fixpoint players_loop (c : counts) (avgs : list avg_player) (j : nat)
    (ps : list player) (st : locals)
  : result (list lineup_row * list avg_player) * locals :=
  match ps with
  | [] => (Ok ([], []), st)
  | p :: ps' =>
      let st1 := assign_average avgs j st in
      let row := player_row c j p in
      match average_row st1 with
      | Raise e => (Raise e, st1)
      | Ok a =>
          match players_loop c avgs (S j) ps' st1 with
          | (Ok (rows, avg_rows), st2) => (Ok (row :: rows, a :: avg_rows), st2)
          | (Raise e, st2) => (Raise e, st2)
          end
      end
  end.

(** The body of the [try] for a finished event, lines 338-449. *)
Definition finished_event (home away : side) (st : locals)
  : result (list merged_row) * locals :=
  match formation_counts (formation home) with
  | Raise e => (Raise e, st)
  | Ok hc =>
  match formation_counts (formation away) with
  | Raise e => (Raise e, st)
  | Ok ac =>
  match players_loop hc (average_positions home) 0 (players home) st with
  | (Raise e, st1) => (Raise e, st1)
  | (Ok (home_rows, home_avg), st1) =>
  match players_loop ac (average_positions away) 0 (players away) st1 with
  | (Raise e, st2) => (Raise e, st2)
  | (Ok (away_rows, away_avg), st2) =>
      let home_df :=
        map (with_team_columns hc (formation home) (shortName home) "Home")
            home_rows in
      let away_df :=
        map (with_team_columns ac (formation away) (shortName away) "Away")
            away_rows in
      let df_avg_position := home_avg ++ away_avg in
      let df := home_df ++ away_df in
      (Ok (Pd.merge_left (fun t => r_id (t_row t)) avg_player_id
             df df_avg_position), st2)
  end end end end.

(** One iteration of the loop over events: the [try] body and its
    [except Exception], which only prints. *)
Definition event_step (ev : event) (dfs : list (list merged_row))
    (st : locals) : list (list merged_row) * locals :=
  match ev with
  | Failed _ => (dfs, st)
  | Unfinished => (dfs, st)
  | Finished home away =>
      match finished_event home away st with
      | (Ok df_merged, st') => (dfs ++ [df_merged], st')
      | (Raise _, st') => (dfs, st')
      end
  end.

Fixpoint events_loop (events : list event) (dfs : list (list merged_row))
    (st : locals) : list (list merged_row) * locals :=
  match events with
  | [] => (dfs, st)
  | ev :: rest =>
      let '(dfs', st') := event_step ev dfs st in
      events_loop rest dfs' st'
  end.

Definition get_lineups_from_events (events : list event)
  : result (list merged_row) :=
  let '(dfs, _) := events_loop events [] unbound in
  Pd.concat dfs.

(** The sibling [get_heatmap_from_players] guards the same concatenation
    (lines 299-305): [if dfs: pd.concat(dfs) else: pd.DataFrame()]. *)
Definition concat_guarded {A} (dfs : list (list A)) : result (list A) :=
  match dfs with
  | [] => Ok []
  | _ => Pd.concat dfs
  end.


Definition counts_nonneg (c : counts) : Prop :=
  0 <= n_def c /\ 0 <= n_mid_0 c /\ 0 <= n_mid_1 c /\ 0 <= n_mid_2 c
  /\ 0 <= n_ata c.

(** Every character of [s] satisfies [P]. *)
Fixpoint all_chars (P : ascii -> bool) (s : string) : bool :=
  match s with
  | EmptyString => true
  | String c r => P c && all_chars P r
  end.

Definition not_char (sep c : ascii) : bool := negb (Ascii.eqb c sep).

(** The size of the group behind a line label; the goalkeeper is alone. *)
Definition group_size (c : counts) (line : string) : Z :=
  if String.eqb line "por" then 1
  else if String.eqb line "def" then n_def c
  else if String.eqb line "mid_0" then n_mid_0 c
  else if String.eqb line "mid_1" then n_mid_1 c
  else if String.eqb line "mid_2" then n_mid_2 c
  else if String.eqb line "ata" then n_ata c
  else 0.

Definition outfield (c : counts) : Z :=
  n_def c + n_mid_0 c + n_mid_1 c + n_mid_2 c + n_ata c.

Definition on_line (line : string) (r : lineup_row) : bool :=
  match r_line r with
  | Some l => String.eqb l line
  | None => false
  end.

(** How many rows of a team were resolved into [line]. *)
Definition count_line (line : string) (rows : list lineup_row) : Z :=
  Z.of_nat (List.length (filter (on_line line) rows)).

(** The orders [lo < order <= hi] of the group behind a line label. *)
Definition window (c : counts) (line : string) : Z * Z :=
  let b_def := 1 + n_def c in
  let b_mid_0 := b_def + n_mid_0 c in
  let b_mid_1 := b_mid_0 + n_mid_1 c in
  let b_mid_2 := b_mid_1 + n_mid_2 c in
  let b_ata := b_mid_2 + n_ata c in
  if String.eqb line "por" then (0, 1)
  else if String.eqb line "def" then (1, b_def)
  else if String.eqb line "mid_0" then (b_def, b_mid_0)
  else if String.eqb line "mid_1" then (b_mid_0, b_mid_1)
  else if String.eqb line "mid_2" then (b_mid_1, b_mid_2)
  else if String.eqb line "ata" then (b_mid_2, b_ata)
  else (0, 0).

Definition lines : list string :=
  ["por"; "def"; "mid_0"; "mid_1"; "mid_2"; "ata"].

(** ** Formation strings as the specification words them *)



Definition int_ok (g : string) : bool :=
  match Py.int g with
  | Ok _ => true
  | Raise _ => false
  end.

Definition group_ok (groups : list string) (i : nat) : bool :=
  match nth_error groups i with
  | Some g => int_ok g
  | None => false
  end.

(** The groups the code reads exist and are integer literals: the first,
    the last, and the second and third of exactly 4 groups or else the
    second alone. *)
Definition consulted_groups_numeric (s : string) : bool :=
  let groups := Py.split "-" s in
  group_ok groups 0 && group_ok (List.rev groups) 0
  && (if (List.length groups =? 4)%nat
      then group_ok groups 1 && group_ok groups 2
      else group_ok groups 1).

(** ** Sample data *)

Definition mk_player (i : Z) (sub : bool) : player :=
  {| name := "player"; id := i; shirtNumber := i; position_key := None;
     substitute := sub; minutesPlayed := Some 90 |}.

Definition mk_avg (i : Z) : avg_player :=
  {| avg_player_id := i; avg_averageX := Qmake 50 1;
     avg_averageY := Qmake 30 1; avg_pointsCount := 10 |}.

Definition mk_side (f : string) (ps : list player) (avgs : list avg_player)
  : side :=
  {| formation := f; players := ps; average_positions := avgs;
     shortName := "team" |}.

Definition c_4_2_3_1 : counts :=
  {| n_def := 4; n_mid_0 := 2; n_mid_1 := 0; n_mid_2 := 3; n_ata := 1 |}.

(** Two players, one sample. *)
Definition home_short : side :=
  mk_side "4-4-2" [mk_player 1 false; mk_player 2 false] [mk_avg 1].

(** One player, no sample. *)
Definition home_no_avg : side := mk_side "4-4-2" [mk_player 1 false] [].

Definition home_two_groups : side :=
  mk_side "4-4" [mk_player 1 false; mk_player 2 false] [mk_avg 1; mk_avg 2].


Definition home_bad_group : side :=
  mk_side "4-x-2" [mk_player 1 false] [mk_avg 1].

Definition away_full : side := mk_side "4-3-3" [mk_player 3 false] [mk_avg 3].

Definition is_finished (ev : event) : bool :=
  match ev with
  | Finished _ _ => true
  | _ => false
  end.

(** ** [get_results_from_events] *)

(** What [get_event_data] returns, as far as the results read it. *)
Record event_data : Type := {
  status_type : string;
  homeTeam_shortName : string;
  homeTeam_id : Z;
  homeScore_display : Z;
  awayTeam_shortName : string;
  awayTeam_id : Z;
  awayScore_display : Z
}.

(** An entry of [events]: its ['id'] and the answer to the request for
    it, which may raise. *)
Record results_event : Type := {
  ev_id : string;
  ev_data : result event_data
}.

(** The dictionaries [home_dic] and [away_dic]. *)
Record result_row : Type := {
  res_event_id : string;
  res_team : string;
  res_team_id : Z;
  score_for : Z;
  score_against : Z;
  win : bool;
  draw : bool;
  loose : bool;
  res_local : string
}.

Definition home_dic (event_id : string) (d : event_data) : result_row :=
  let homeScore := homeScore_display d in
  let awayScore := awayScore_display d in
  {| res_event_id := event_id; res_team := homeTeam_shortName d;
     res_team_id := homeTeam_id d;
     score_for := homeScore; score_against := awayScore;
     win := homeScore >? awayScore; draw := homeScore =? awayScore;
     loose := homeScore <? awayScore; res_local := "Home" |}.

Definition away_dic (event_id : string) (d : event_data) : result_row :=
  let homeScore := homeScore_display d in
  let awayScore := awayScore_display d in
  {| res_event_id := event_id; res_team := awayTeam_shortName d;
     res_team_id := awayTeam_id d;
     score_for := awayScore; score_against := homeScore;
     win := awayScore >? homeScore; draw := awayScore =? homeScore;
     loose := awayScore <? homeScore; res_local := "Away" |}.

(** The loop of lines 479-533; no [try] surrounds the request. *)
Fixpoint results_loop (events : list results_event)
    (dfs : list (list result_row)) : result (list (list result_row)) :=
  match events with
  | [] => Ok dfs
  | event :: rest =>
      d <- ev_data event ;;
      if String.eqb (status_type d) "finished" then
        results_loop rest
          (dfs ++ [[home_dic (ev_id event) d] ++ [away_dic (ev_id event) d]])
      else results_loop rest dfs
  end.

Definition get_results_from_events (events : list results_event)
  : result (list result_row) :=
  dfs <- results_loop events [] ;;
  Pd.concat dfs.

Definition is_finished_result (event : results_event) : bool :=
  match ev_data event with
  | Ok d => String.eqb (status_type d) "finished"
  | Raise _ => false
  end.

Definition request_ok (event : results_event) : bool :=
  match ev_data event with
  | Ok _ => true
  | Raise _ => false
  end.

Definition count_rows {A} (f : A -> bool) (rows : list A) : nat :=
  List.length (filter f rows).

Definition a_result (status : string) (h a : Z) : results_event :=
  {| ev_id := "1";
     ev_data := Ok {| status_type := status;
                      homeTeam_shortName := "home"; homeTeam_id := 1;
                      homeScore_display := h;
                      awayTeam_shortName := "away"; awayTeam_id := 2;
                      awayScore_display := a |} |}.

Definition a_failed_result : results_event :=
  {| ev_id := "2"; ev_data := Raise RequestException |}.

(** The frame a finished event adds. *)
Definition results_frame (event : results_event) : list result_row :=
  match ev_data event with
  | Ok d => [home_dic (ev_id event) d; away_dic (ev_id event) d]
  | Raise _ => []
  end.

Definition outcomes (r : result_row) : nat :=
  (Nat.b2n (win r) + Nat.b2n (draw r) + Nat.b2n (loose r))%nat.

(** ** Heat maps: [get_heatmap], [get_player_tournaments],
    [get_heatmap_from_players] *)

(** A point of the heat map answer; each key may be absent. *)
Record point_json : Type := {
  pt_x : option Z;
  pt_y : option Z;
  pt_count : option Z
}.

Record heat_row : Type := {
  h_x : Z;
  h_y : Z;
  h_count : Z;
  h_player_id : Z;
  h_league_id : Z;
  h_season_id : Z
}.

Record season_json : Type := {
  sj_year : string;
  sj_name : string;
  sj_id : Z
}.

(** An entry of [data['uniqueTournamentSeasons']]. *)
Record tournament_json : Type := {
  ut_id : Z;
  ut_seasons : list season_json
}.

(** A row of [tournaments_df]. *)
Record tournament_row : Type := {
  competition_name : string;
  tournaments_id : Z;
  tr_season_id : Z;
  tr_player_id : Z
}.

Section Remote.

(** The remote API and the clock: the seasons of a player (the request,
    [raise_for_status], [json] and the key lookup may raise), the heat map
    of a player in a league and season ([None]: an answer without
    ['points']), and [datetime.now().year]. *)
Variable api_seasons : Z -> result (list tournament_json).
Variable api_heatmap : Z -> Z -> Z -> result (option (list point_json)).
Variable now_year : Z.

(** Lines 772-811: every exception of the request is swallowed by the bare
    [except] and gives the empty frame. *)
Definition get_heatmap (player_id league_id season_id : Z) : list heat_row :=
  match api_heatmap player_id league_id season_id with
  | Raise _ => []
  | Ok None => []
  | Ok (Some points) =>
      map (fun point =>
             {| h_x := get_default (pt_x point) 0;
                h_y := get_default (pt_y point) 0;
                h_count := get_default (pt_count point) 0;
                h_player_id := player_id; h_league_id := league_id;
                h_season_id := season_id |})
          points
  end.

(** The inner loop of lines 757-763 over the seasons of one tournament. *)
Fixpoint seasons_loop (current_year : string) (player_id : Z)
    (tournament : tournament_json) (seasons : list season_json)
    (tournaments : list tournament_row) : result (list tournament_row) :=
  match seasons with
  | [] => Ok tournaments
  | season :: rest =>
      season_year <- Py.int (Py.last_two (sj_year season)) ;;
      this_year <- Py.int (Py.last_two current_year) ;;
      if season_year >? this_year - 2 then
        seasons_loop current_year player_id tournament rest
          (tournaments
           ++ [{| competition_name := sj_name season;
                  tournaments_id := ut_id tournament;
                  tr_season_id := sj_id season;
                  tr_player_id := player_id |}])
      else seasons_loop current_year player_id tournament rest tournaments
  end.

Fixpoint tournaments_loop (current_year : string) (player_id : Z)
    (data : list tournament_json) (tournaments : list tournament_row)
  : result (list tournament_row) :=
  match data with
  | [] => Ok tournaments
  | tournament :: rest =>
      tournaments' <- seasons_loop current_year player_id tournament
                        (ut_seasons tournament) tournaments ;;
      tournaments_loop current_year player_id rest tournaments'
  end.

Definition get_player_tournaments (player_id : Z)
  : result (list tournament_row) :=
  data <- api_seasons player_id ;;
  tournaments_loop (Py.str now_year) player_id data [].

(** Lines 287-296, for the tournaments of one player. *)
Fixpoint heatmaps_loop (player_id : Z) (tournaments : list tournament_row)
    (dfs : list (list heat_row)) : list (list heat_row) :=
  match tournaments with
  | [] => dfs
  | row :: rest =>
      heatmaps_loop player_id rest
        (dfs ++ [get_heatmap player_id (tournaments_id row)
                   (tr_season_id row)])
  end.

(** Lines 276-296: a player whose tournaments cannot be read is passed
    over. *)
Fixpoint heatmap_players_loop (players : list Z)
    (dfs : list (list heat_row)) : list (list heat_row) :=
  match players with
  | [] => dfs
  | player_id :: rest =>
      match get_player_tournaments player_id with
      | Raise _ => heatmap_players_loop rest dfs
      | Ok tournaments =>
          heatmap_players_loop rest (heatmaps_loop player_id tournaments dfs)
      end
  end.

Definition get_heatmap_from_players (players : list Z)
  : result (list heat_row) :=
  concat_guarded (heatmap_players_loop players []).

(** The rows one player contributes. *)
Definition player_heat_rows (player_id : Z) : list heat_row :=
  match get_player_tournaments player_id with
  | Raise _ => []
  | Ok tournaments =>
      flat_map (fun row => get_heatmap player_id (tournaments_id row)
                             (tr_season_id row))
               tournaments
  end.

(** Whether a season passes the test of line 759, which compares
    two-digit years. *)
Definition season_kept (season : season_json) : bool :=
  match Py.int (Py.last_two (sj_year season)) with
  | Ok season_year => season_year >? now_year mod 100 - 2
  | Raise _ => false
  end.

Definition season_year_ok (season : season_json) : bool :=
  match Py.int (Py.last_two (sj_year season)) with
  | Ok _ => true
  | Raise _ => false
  end.

Definition tournament_rows (player_id : Z) (tournament : tournament_json)
  : list tournament_row :=
  map (fun season =>
         {| competition_name := sj_name season;
            tournaments_id := ut_id tournament;
            tr_season_id := sj_id season;
            tr_player_id := player_id |})
      (filter season_kept (ut_seasons tournament)).

End Remote.

(** The years a [datetime] can hold, MINYEAR to MAXYEAR. *)
Definition datetime_years : list Z := map Z.of_nat (seq 1 (Z.to_nat 9999)).

Definition demo_seasons (player_id : Z) : result (list tournament_json) :=
  if player_id =? 7 then
    Ok [{| ut_id := 17;
           ut_seasons := [{| sj_year := "23/24"; sj_name := "A"; sj_id := 1 |};
                          {| sj_year := "2019"; sj_name := "B"; sj_id := 2 |}]
        |}]
  else Raise RequestException.

Definition demo_heatmap (player_id league_id season_id : Z)
  : result (option (list point_json)) :=
  Ok (Some [{| pt_x := Some 10; pt_y := Some 20; pt_count := None |}]).

(** ** Teams of a league: [get_tournament_standing],
    [get_teams_from_league] *)

(** What [get_tournament_standing] reads in the first standing: the
    tournament and category names, the year of the update time stamp, and
    the rows' team names and identifiers. *)
Record standing_json : Type := {
  sg_tournament : string;
  sg_category : string;
  sg_updated_year : Z;
  sg_rows : list (string * Z)
}.

(** The dictionary [get_tournament_standing] returns. *)
Record standings : Type := {
  st_league : string;
  st_country : string;
  st_season : Z;
  teams_name : list string;
  teams_id : list Z
}.

Record team_info : Type := {
  ti_team : string;
  ti_id : Z;
  ti_logo : string;
  ti_league : string;
  ti_country : string;
  ti_season : Z;
  ti_link : string
}.

(** Lines 710-732: only a [RequestException] is caught and turned into
    [None]; [data['standings'][0]] on an empty list raises [IndexError]. *)
Definition get_tournament_standing (response : result (list standing_json))
  : result (option standings) :=
  match response with
  | Raise RequestException => Ok None
  | Raise e => Raise e
  | Ok data =>
      first <- Py.index data 0 ;;
      Ok (Some {| st_league := sg_tournament first;
                  st_country := sg_category first;
                  st_season := sg_updated_year first;
                  teams_name := map fst (sg_rows first);
                  teams_id := map snd (sg_rows first) |})
  end.

(** Lines 32-34: the tournament and season identifiers in the URL. *)
Definition league_ids (league_url : string) : result (string * string) :=
  let parts := Py.split "/" (Py.rstrip_char "/" league_url) in
  last <- Py.index_last parts ;;
  tournament_id <- Py.index (Py.split_str "#id:" last) 0 ;;
  last' <- Py.index_last parts ;;
  season_id <- Py.index (Py.split_str "#id:" last') 1 ;;
  Ok (tournament_id, season_id).

Definition team_marker : string := "/es/equipo/futbol/".
Definition site : string := "https://www.sofascore.com".

Definition team_logo (team_id : Z) : string :=
  ("https://api.sofascore.app/api/v1/team/" ++ Py.str team_id ++ "/image")
  %string.

(** Lines 52-71: the loop over the links of the league page. *)
Fixpoint team_links_loop (s : standings) (links seen_links : list string)
    (teams_dic : list team_info) (j : nat) : result (list team_info) :=
  match links with
  | [] => Ok teams_dic
  | href :: rest =>
      if negb (Py.mem href seen_links) then
        let seen_links := seen_links ++ [href] in
        if Py.contains team_marker href then
          let full_link := (site ++ href)%string in
          if (j <? List.length (teams_name s))%nat then
            team <- Py.index (teams_name s) j ;;
            team_id <- Py.index (teams_id s) j ;;
            team_id' <- Py.index (teams_id s) j ;;
            team_links_loop s rest seen_links
              (teams_dic
               ++ [{| ti_team := team; ti_id := team_id;
                      ti_logo := team_logo team_id';
                      ti_league := st_league s; ti_country := st_country s;
                      ti_season := st_season s; ti_link := full_link |}])
              (S j)
          else team_links_loop s rest seen_links teams_dic j
        else team_links_loop s rest seen_links teams_dic j
      else team_links_loop s rest seen_links teams_dic j
  end.

(** [get_teams_from_league]: [standings_of] answers the standings request
    for a tournament and season, [page] is the list of [href]s of the
    league page or the exception of its request. *)
Definition get_teams_from_league
    (standings_of : string -> string -> result (list standing_json))
    (page : string -> result (list string)) (league_url : string)
  : result (list team_info) :=
  ids <- league_ids league_url ;;
  st <- get_tournament_standing (standings_of (fst ids) (snd ids)) ;;
  match st with
  | None => Ok []
  | Some s =>
      match page league_url with
      | Raise RequestException => Ok []
      | Raise e => Raise e
      | Ok links => team_links_loop s links [] [] 0
      end
  end.

(** The [href]s in order of first occurrence, none of them in [seen]. *)
Fixpoint first_occurrences (seen links : list string) : list string :=
  match links with
  | [] => []
  | href :: rest =>
      if Py.mem href seen then first_occurrences seen rest
      else href :: first_occurrences (seen ++ [href]) rest
  end.

Definition demo_standing : list standing_json :=
  [{| sg_tournament := "Liga"; sg_category := "Argentina";
      sg_updated_year := 2024;
      sg_rows := [("Boca", 1); ("River", 2)] |}].

Definition demo_links : list string :=
  ["/es/equipo/futbol/river/22"; "/es/torneo/x";
   "/es/equipo/futbol/river/22"; "/es/equipo/futbol/boca/11";
   "/es/equipo/futbol/racing/33"].

(** The entry built for the [j]-th standing row and a team link. *)
Definition team_entry (s : standings) (team : string) (team_id : Z)
    (href : string) : team_info :=
  {| ti_team := team; ti_id := team_id; ti_logo := team_logo team_id;
     ti_league := st_league s; ti_country := st_country s;
     ti_season := st_season s; ti_link := (site ++ href)%string |}.

(** Standing rows and team links paired by position, up to the shorter. *)
Fixpoint pair_teams (s : standings) (names : list string) (ids : list Z)
    (hrefs : list string) : list team_info :=
  match names, ids, hrefs with
  | team :: names', team_id :: ids', href :: hrefs' =>
      team_entry s team team_id href :: pair_teams s names' ids' hrefs'
  | _, _, _ => []
  end.

(** The distinct team links of a page, in order of first occurrence. *)
Definition team_hrefs (links : list string) : list string :=
  filter (Py.contains team_marker) (first_occurrences [] links).

(** ** Players of the teams: [get_players_from_teams] *)

Record player_info : Type := {
  pl_name : string;
  pl_id : string;
  pl_profile : string;
  pl_team : string;
  pl_league : string;
  pl_country : string;
  pl_season : Z;
  pl_link : string
}.

Definition player_marker : string := "/es/jugador/".

(** Lines 236-251: the dictionary of a player link; [id] and [part] are
    the last and the last but one segment of the link. *)
Definition player_entry (team : team_info) (href id part : string)
  : player_info :=
  {| pl_name := Py.title (Py.replace_char "-" " " part);
     pl_id := id;
     pl_profile :=
       ("https://api.sofascore.app/api/v1/player/" ++ id ++ "/image")%string;
     pl_team := ti_team team; pl_league := ti_league team;
     pl_country := ti_country team; pl_season := ti_season team;
     pl_link := (site ++ href)%string |}.

(** Lines 229-252: the loop over the links of one team page; [repeated]
    outlives the page. *)
Fixpoint player_links_loop (team : team_info) (links repeated : list string)
    (players_dic : list player_info)
  : result (list player_info * list string) :=
  match links with
  | [] => Ok (players_dic, repeated)
  | href :: rest =>
      if negb (Py.mem href repeated) then
        let repeated := repeated ++ [href] in
        if Py.contains player_marker href then
          id <- Py.index_last (Py.split "/" (Py.rstrip_char "/" href)) ;;
          part <- Py.index_before_last
                    (Py.split "/" (Py.rstrip_char "/" href)) ;;
          player_links_loop team rest repeated
            (players_dic ++ [player_entry team href id part])
        else player_links_loop team rest repeated players_dic
      else player_links_loop team rest repeated players_dic
  end.

(** Lines 215-252: the loop over the teams; the request for a team page is
    not guarded. *)
Fixpoint players_teams_loop (page : string -> result (list string))
    (teams : list team_info) (repeated : list string)
    (players_dic : list player_info) : result (list player_info) :=
  match teams with
  | [] => Ok players_dic
  | team :: rest =>
      links <- page (ti_link team) ;;
      state <- player_links_loop team links repeated players_dic ;;
      players_teams_loop page rest (snd state) (fst state)
  end.

Definition get_players_from_teams (page : string -> result (list string))
    (teams : list team_info) : result (list player_info) :=
  players_teams_loop page teams [] [].

(** How often a character occurs in a string. *)
Fixpoint count_char (c : ascii) (s : string) : nat :=
  match s with
  | EmptyString => 0
  | String a r => (if Ascii.eqb a c then 1 else 0) + count_char c r
  end.

Definition demo_team (team link : string) : team_info :=
  {| ti_team := team; ti_id := 1; ti_logo := ""; ti_league := "Liga";
     ti_country := "Argentina"; ti_season := 2024; ti_link := link |}.

Definition demo_pages (url : string) : result (list string) :=
  if String.eqb url "boca" then
    Ok ["/es/jugador/edinson-cavani/12345"; "/es/equipo/futbol/boca/11";
        "/es/jugador/edinson-cavani/12345"]
  else if String.eqb url "river" then
    Ok ["/es/jugador/edinson-cavani/12345"; "/es/jugador/franco-armani/777/"]
  else Raise RequestException.

(** The links collected so far are distinct and all stem from links
    already marked as seen. *)
Definition links_tracked (repeated : list string)
    (players_dic : list player_info) : Prop :=
  NoDup (map pl_link players_dic)
  /\ forall p, In p players_dic ->
               exists href, In href repeated
                            /\ pl_link p = (site ++ href)%string.


(** ** Counting position codes, and events with complete samples *)

Definition on_pos (code : string) (r : lineup_row) : bool :=
  match r_pos r with
  | Some p => String.eqb p code
  | None => false
  end.

Definition count_pos (code : string) (rows : list lineup_row) : Z :=
  Z.of_nat (List.length (filter (on_pos code) rows)).

(** Both sides have at least as many samples as players. *)
Definition well_sampled (ev : event) : bool :=
  match ev with
  | Finished home away =>
      (List.length (players home) <=? List.length (average_positions home))%nat
      && (List.length (players away)
          <=? List.length (average_positions away))%nat
  | _ => true
  end.

(** The frame a well-sampled event adds: none unless the event is
    finished and both formations are read. *)
Definition sampled_frame (ev : event) : list (list merged_row) :=
  match ev with
  | Finished home away =>
      match formation_counts (formation home),
            formation_counts (formation away) with
      | Ok hc, Ok ac =>
          [Pd.merge_left (fun t => r_id (t_row t)) avg_player_id
             (create_team_df (players home) (formation home) hc
                (shortName home) true
              ++ create_team_df (players away) (formation away) ac
                   (shortName away) false)
             (firstn (List.length (players home)) (average_positions home)
              ++ firstn (List.length (players away))
                   (average_positions away))]
      | _, _ => []
      end
  | _ => []
  end.

Definition eleven : list player :=
  map (fun i => mk_player (Z.of_nat i) false) (seq 1 11).

(** ** Events of a league: the pure steps of [get_events_from_league] *)

Definition matches_tab : string := ",tab:matches".

(** Lines 95-96. *)
Definition matches_url (league_url : string) : string :=
  if negb (Py.endswith matches_tab league_url)
  then (league_url ++ matches_tab)%string
  else league_url.

(** The truth value of a string. *)
Definition truthy (s : string) : bool := negb (String.eqb s "").

(** Lines 129-134: the condition is ['Round' or ('Ronda' in round_text)]. *)
Fixpoint select_round (round_items : list string) : option string :=
  match round_items with
  | [] => None
  | round_text :: rest =>
      if truthy "Round" || Py.contains "Ronda" round_text
      then Some round_text
      else select_round rest
  end.

(** Line 137. *)
Definition current_round_number (selected_round : option string)
  : result string :=
  match selected_round with
  | Some text =>
      if truthy text then Py.index_last (Py.split " " text)
      else Ok "Not found"
  | None => Ok "Not found"
  end.

(** Lines 129-142: [None] when the loop over the rounds ends here, else
    the round number. *)
Definition read_round (round_items : list string) : result (option Z) :=
  number <- current_round_number (select_round round_items) ;;
  if String.eqb number "Not found" then Ok None
  else round_number <- Py.int number ;; Ok (Some round_number).

(** * Properties *)

Example formation_4231 :
  map (fun o => determine_position o 4 2 0 3 1 true) [1; 5; 6; 10; 11; 12]
  = [ (Some "por", Some "1/1", Some "POR");
      (Some "def", Some "4/4", Some "DEF");
      (Some "mid_0", Some "1/2", Some "MED");
      (Some "mid_2", Some "3/3", Some "MED");
      (Some "ata", Some "1/1", Some "ATA");
      (None, None, Some "SUS") ].
Proof. reflexivity. Qed.

Example int_examples :
  map Py.int ["4"; " 4 "; "+4"; "1_0"; ""; "x"; "4_"; "007"; "-3"]
  = [Ok 4; Ok 4; Ok 4; Ok 10; Raise ValueError; Raise ValueError;
     Raise ValueError; Ok 7; Ok (-3)].
Proof. reflexivity. Qed.

Example split_examples :
  map (Py.split "-") ["4-2-3-1"; ""; "4--2"; "4-"]
  = [["4"; "2"; "3"; "1"]; [""]; ["4"; ""; "2"]; ["4"; ""]].
Proof. reflexivity. Qed.

Example formation_examples :
  map formation_counts ["4-2-3-1"; "4-3-3"; "4-4"; "4"; "4-x-2"]
  = [Ok {| n_def := 4; n_mid_0 := 2; n_mid_1 := 0; n_mid_2 := 3; n_ata := 1 |};
     Ok {| n_def := 4; n_mid_0 := 0; n_mid_1 := 3; n_mid_2 := 0; n_ata := 3 |};
     Ok {| n_def := 4; n_mid_0 := 0; n_mid_1 := 4; n_mid_2 := 0; n_ata := 4 |};
     Raise IndexError; Raise ValueError].
Proof. reflexivity. Qed.

(** ** The cascade of [determine_position] *)

(** Decide every comparison of the cascade and close the arithmetic. *)
Ltac cascade :=
  unfold resolve, determine_position;
  repeat match goal with
    | |- context [?x =? ?y] => destruct (Z.eqb_spec x y)
    | |- context [?x <=? ?y] => destruct (Z.leb_spec x y)
    | |- context [?x <? ?y] => destruct (Z.ltb_spec x y)
    end;
  cbn [andb negb fst snd line_of lat_of pos_of];
  try lia; try reflexivity; try congruence;
  try match goal with
    | |- context [if ?b then _ else _] =>
        destruct b; cbn [negb fst snd line_of lat_of pos_of];
        try reflexivity; try congruence
    end.

Section Resolver.

Variables d m0 m1 m2 a : Z.

Lemma goalkeeper_slot (sub : bool) :
  determine_position 1 d m0 m1 m2 a sub = (Some "por", Some "1/1", Some "POR").
Proof. reflexivity. Qed.

Lemma defense_window (order : Z) (sub : bool) :
  1 < order <= 1 + d ->
  determine_position order d m0 m1 m2 a sub
  = (Some "def", Some (lat_str (order - 1) d), Some "DEF").
Proof. intros H. cascade. Qed.

Lemma mid_0_window (order : Z) (sub : bool) :
  0 <= d -> 1 + d < order <= 1 + d + m0 ->
  determine_position order d m0 m1 m2 a sub
  = (Some "mid_0", Some (lat_str (order - (1 + d)) m0), Some "MED").
Proof.
  intros Hd H. replace (order - (1 + d)) with (order - 1 - d) by lia.
  cascade.
Qed.

Lemma mid_1_window (order : Z) (sub : bool) :
  0 <= d -> 0 <= m0 -> 1 + d + m0 < order <= 1 + d + m0 + m1 ->
  determine_position order d m0 m1 m2 a sub
  = (Some "mid_1", Some (lat_str (order - (1 + d + m0)) m1), Some "MED").
Proof.
  intros Hd Hm0 H.
  replace (order - (1 + d + m0)) with (order - 1 - d - m0) by lia.
  cascade.
Qed.

Lemma mid_2_window (order : Z) (sub : bool) :
  0 <= d -> 0 <= m0 -> 0 <= m1 ->
  1 + d + m0 + m1 < order <= 1 + d + m0 + m1 + m2 ->
  determine_position order d m0 m1 m2 a sub
  = (Some "mid_2", Some (lat_str (order - (1 + d + m0 + m1)) m2), Some "MED").
Proof.
  intros Hd Hm0 Hm1 H.
  replace (order - (1 + d + m0 + m1)) with (order - 1 - d - m0 - m1) by lia.
  cascade.
Qed.

Lemma ata_window (order : Z) (sub : bool) :
  0 <= d -> 0 <= m0 -> 0 <= m1 -> 0 <= m2 ->
  1 + d + m0 + m1 + m2 < order <= 1 + d + m0 + m1 + m2 + a ->
  determine_position order d m0 m1 m2 a sub
  = (Some "ata", Some (lat_str (order - (1 + d + m0 + m1 + m2)) a),
     Some "ATA").
Proof.
  intros Hd Hm0 Hm1 Hm2 H.
  replace (order - (1 + d + m0 + m1 + m2))
    with (order - 1 - d - m0 - m1 - m2) by lia.
  cascade.
Qed.

(** A line whose group is empty, after non-negative groups, is never
    assigned. *)
Lemma mid_0_empty (order : Z) (sub : bool) :
  m0 = 0 ->
  line_of (determine_position order d m0 m1 m2 a sub) <> Some "mid_0".
Proof. intros ->. cascade. Qed.

Lemma mid_1_empty (order : Z) (sub : bool) :
  m1 = 0 ->
  line_of (determine_position order d m0 m1 m2 a sub) <> Some "mid_1".
Proof. intros ->. cascade. Qed.

Lemma mid_2_empty (order : Z) (sub : bool) :
  m2 = 0 ->
  line_of (determine_position order d m0 m1 m2 a sub) <> Some "mid_2".
Proof. intros ->. cascade. Qed.

End Resolver.

(** C3: order 1 is the goalkeeper line ['por'] with slot ['1/1'] and code
    ['POR'], whatever the group counts and the substitute flag. *)
Theorem C3_order_one_is_goalkeeper :
  forall (d m0 m1 m2 a : Z) (sub : bool),
    determine_position 1 d m0 m1 m2 a sub
    = (Some "por", Some "1/1", Some "POR").
Proof. intros. apply goalkeeper_slot. Qed.

(** C2: when the non-negative group counts add up to 10, every order above
    11 gets no line, no lateral slot, and the code ['SUS'] for a substitute
    or ['RES'] otherwise. *)
Theorem C2_bench_codes :
  forall (order d m0 m1 m2 a : Z) (sub : bool),
    0 <= d -> 0 <= m0 -> 0 <= m1 -> 0 <= m2 -> 0 <= a ->
    d + m0 + m1 + m2 + a = 10 ->
    11 < order ->
    determine_position order d m0 m1 m2 a sub
    = (None, None, Some (if sub then "SUS" else "RES")).
Proof.
  intros order d m0 m1 m2 a sub Hd H0 H1 H2 Ha Hsum Ho.
  cascade; destruct sub; reflexivity.
Qed.

Lemma C2_bench_codes_witness :
  determine_position 12 4 2 0 3 1 true = (None, None, Some "SUS")
  /\ determine_position 14 4 0 3 0 3 false = (None, None, Some "RES").
Proof.
  split.
  - apply (C2_bench_codes 12 4 2 0 3 1 true); lia.
  - apply (C2_bench_codes 14 4 0 3 0 3 false); lia.
Defined.



(** C10: inside the groups, for 2 <= order <= 1 + def + mid0 + mid1 + mid2
    + ata, the substitute flag changes nothing, and a line is assigned. *)
Theorem C10_flag_ignored_inside_groups :
  forall (order d m0 m1 m2 a : Z),
    2 <= order <= 1 + d + m0 + m1 + m2 + a ->
    determine_position order d m0 m1 m2 a true
    = determine_position order d m0 m1 m2 a false
    /\ line_of (determine_position order d m0 m1 m2 a true) <> None.
Proof.
  intros order d m0 m1 m2 a H. split; cascade.
Qed.

Lemma C10_flag_ignored_inside_groups_witness :
  determine_position 7 4 2 0 3 1 true = determine_position 7 4 2 0 3 1 false
  /\ line_of (determine_position 7 4 2 0 3 1 true) <> None.
Proof.
  apply (C10_flag_ignored_inside_groups 7 4 2 0 3 1). lia.
Defined.

(** ** Formation strings *)

Lemma split_all_chars (sep : ascii) (s : string) :
  Forall (fun g => all_chars (not_char sep) g = true) (Py.split sep s).
Proof.
  induction s as [|c r IH]; cbn [Py.split].
  - repeat constructor.
  - destruct (Ascii.eqb c sep) eqn:E.
    + constructor; [reflexivity | exact IH].
    + destruct (Py.split sep r) as [|g gs].
      * constructor; [|constructor]. cbn. unfold not_char. now rewrite E.
      * inversion IH as [|? ? Hg Hgs]; subst. constructor; [|exact Hgs].
        cbn. unfold not_char at 1. now rewrite E, Hg.
Qed.

Lemma lstrip_all_chars (P : ascii -> bool) (s : string) :
  all_chars P s = true -> all_chars P (Py.lstrip s) = true.
Proof.
  induction s as [|c r IH]; cbn [Py.lstrip]; [easy|].
  intros H. destruct (Py.isspace c); [|exact H].
  apply IH. cbn in H. now apply andb_true_iff in H.
Qed.

Lemma rstrip_all_chars (P : ascii -> bool) (s : string) :
  all_chars P s = true -> all_chars P (Py.rstrip s) = true.
Proof.
  induction s as [|c r IH]; cbn [Py.rstrip]; [easy|].
  intros H. cbn in H. apply andb_true_iff in H as [Hc Hr].
  specialize (IH Hr). destruct (Py.rstrip r) as [|c' r'].
  - destruct (Py.isspace c); [reflexivity|]. cbn. now rewrite Hc.
  - change (P c && all_chars P (String c' r') = true). now rewrite Hc, IH.
Qed.

Lemma digit_val_nonneg (c : ascii) : Py.isdigit c = true -> 0 <= Py.digit_val c.
Proof.
  unfold Py.isdigit, Py.digit_val. intros H.
  apply andb_true_iff in H as [H _]. apply Nat.leb_le in H. lia.
Qed.

Lemma int_digits_nonneg (s : string) :
  forall prev acc z, 0 <= acc -> Py.int_digits prev acc s = Ok z -> 0 <= z.
Proof.
  induction s as [|c r IH]; intros prev acc z Hacc; cbn [Py.int_digits].
  - destruct prev; [intros [= <-]; exact Hacc | discriminate].
  - destruct (Py.isdigit c) eqn:Hd.
    + apply IH. pose proof (digit_val_nonneg c Hd). lia.
    + destruct (Ascii.eqb c "_" && prev); [now apply IH | discriminate].
Qed.

(** [int] of a string without a minus sign is not negative. *)
Lemma int_nonneg (s : string) (z : Z) :
  all_chars (not_char "-") s = true -> Py.int s = Ok z -> 0 <= z.
Proof.
  intros Hs. unfold Py.int.
  pose proof (rstrip_all_chars _ _ (lstrip_all_chars _ _ Hs)) as Ht.
  destruct (Py.rstrip (Py.lstrip s)) as [|c r]; [discriminate|].
  cbn in Ht. apply andb_true_iff in Ht as [Hc _].
  unfold not_char in Hc. apply negb_true_iff in Hc. rewrite Hc.
  destruct (Ascii.eqb c "+"); now apply int_digits_nonneg.
Qed.

Lemma index_In {A} (l : list A) (i : nat) (x : A) :
  Py.index l i = Ok x -> In x l.
Proof.
  unfold Py.index. destruct (nth_error l i) eqn:E; [|discriminate].
  intros [= <-]. eapply nth_error_In, E.
Qed.

Lemma index_last_In {A} (l : list A) (x : A) :
  Py.index_last l = Ok x -> In x l.
Proof.
  unfold Py.index_last. intros H. apply index_In in H. now apply in_rev.
Qed.

Lemma group_int_nonneg (s g : string) (z : Z) :
  In g (Py.split "-" s) -> Py.int g = Ok z -> 0 <= z.
Proof.
  intros Hin. apply int_nonneg.
  pose proof (split_all_chars "-" s) as H.
  rewrite Forall_forall in H. now apply H.
Qed.

(** Invert one [x <- m ;; k] of a successful computation. *)
Ltac bind_inv H :=
  match type of H with
  | Py.bind ?m _ = Ok _ =>
      let E := fresh "E" in
      destruct m eqn:E; cbn [Py.bind] in H; [|discriminate H]
  end.

(** What a successful parse read from the groups. *)
Lemma formation_counts_inv (s : string) (c : counts) :
  formation_counts s = Ok c ->
  let groups := Py.split "-" s in
  (g <- Py.index groups 0 ;; Py.int g) = Ok (n_def c)
  /\ (g <- Py.index_last groups ;; Py.int g) = Ok (n_ata c)
  /\ ((List.length groups = 4%nat
       /\ (g <- Py.index groups 1 ;; Py.int g) = Ok (n_mid_0 c)
       /\ n_mid_1 c = 0
       /\ (g <- Py.index groups 2 ;; Py.int g) = Ok (n_mid_2 c))
      \/ (List.length groups <> 4%nat
          /\ n_mid_0 c = 0
          /\ (g <- Py.index groups 1 ;; Py.int g) = Ok (n_mid_1 c)
          /\ n_mid_2 c = 0)).
Proof.
  unfold formation_counts. intros H. cbv zeta.
  bind_inv H. bind_inv H.
  destruct (Nat.eqb_spec (List.length (Py.split "-" s)) 4) as [L|L].
  - bind_inv H. bind_inv H. injection H as <-. cbn.
    repeat split; auto; left; repeat split; auto.
  - bind_inv H. injection H as <-. cbn.
    repeat split; auto; right; repeat split; auto.
Qed.

Lemma indexed_int_nonneg (s : string) (i : nat) (z : Z) :
  (g <- Py.index (Py.split "-" s) i ;; Py.int g) = Ok z -> 0 <= z.
Proof.
  intros H. bind_inv H. eapply group_int_nonneg; [|exact H].
  eapply index_In, E.
Qed.

Lemma last_int_nonneg (s : string) (z : Z) :
  (g <- Py.index_last (Py.split "-" s) ;; Py.int g) = Ok z -> 0 <= z.
Proof.
  intros H. bind_inv H. eapply group_int_nonneg; [|exact H].
  eapply index_last_In, E.
Qed.

(** The groups of a formation string hold no minus sign, so every count
    the assembler passes on is non-negative. *)
Lemma formation_counts_nonneg (s : string) (c : counts) :
  formation_counts s = Ok c -> counts_nonneg c.
Proof.
  intros H. apply formation_counts_inv in H. cbv zeta in H.
  destruct H as (Hd & Ha & [(_ & H0 & H1 & H2) | (_ & H0 & H1 & H2)]);
    unfold counts_nonneg;
    repeat match goal with
      | H : Py.bind (Py.index _ _) _ = Ok _ |- _ =>
          apply indexed_int_nonneg in H
      | H : Py.bind (Py.index_last _) _ = Ok _ |- _ =>
          apply last_int_nonneg in H
      end; lia.
Qed.

(** C1: for the counts read off a formation string of 3 or 4 groups and
    every order above 1, an order inside the window
    [previous boundary + 1, previous boundary + size] of a non-empty group
    gets that group's line, code and slot
    ['{order - previous boundary}/{size}'], the groups being taken in the
    order def, mid_0, mid_1, mid_2, ata from boundary 1. With 4 groups the
    second and third are mid_0 and mid_2 and line ['mid_1'] never appears;
    with 3 groups the second is mid_1 and lines ['mid_0'] and ['mid_2']
    never appear. *)
Theorem C1_groups_in_fixed_order :
  forall (s : string) (c : counts),
    formation_counts s = Ok c ->
    (List.length (Py.split "-" s) = 3%nat
     \/ List.length (Py.split "-" s) = 4%nat) ->
    (forall (order : Z) (sub : bool),
        1 < order ->
        (0 < n_def c ->
         1 + 1 <= order <= 1 + n_def c ->
         resolve c order sub
         = (Some "def", Some (lat_str (order - 1) (n_def c)), Some "DEF"))
        /\ (let prev := 1 + n_def c in
            0 < n_mid_0 c ->
            prev + 1 <= order <= prev + n_mid_0 c ->
            resolve c order sub
            = (Some "mid_0", Some (lat_str (order - prev) (n_mid_0 c)),
               Some "MED"))
        /\ (let prev := 1 + n_def c + n_mid_0 c in
            0 < n_mid_1 c ->
            prev + 1 <= order <= prev + n_mid_1 c ->
            resolve c order sub
            = (Some "mid_1", Some (lat_str (order - prev) (n_mid_1 c)),
               Some "MED"))
        /\ (let prev := 1 + n_def c + n_mid_0 c + n_mid_1 c in
            0 < n_mid_2 c ->
            prev + 1 <= order <= prev + n_mid_2 c ->
            resolve c order sub
            = (Some "mid_2", Some (lat_str (order - prev) (n_mid_2 c)),
               Some "MED"))
        /\ (let prev := 1 + n_def c + n_mid_0 c + n_mid_1 c + n_mid_2 c in
            0 < n_ata c ->
            prev + 1 <= order <= prev + n_ata c ->
            resolve c order sub
            = (Some "ata", Some (lat_str (order - prev) (n_ata c)),
               Some "ATA")))
    /\ (forall g0 g1 g2 g3 : string,
           Py.split "-" s = [g0; g1; g2; g3] ->
           Py.int g1 = Ok (n_mid_0 c)
           /\ Py.int g2 = Ok (n_mid_2 c)
           /\ n_mid_1 c = 0
           /\ forall (order : Z) (sub : bool),
               line_of (resolve c order sub) <> Some "mid_1")
    /\ (forall g0 g1 g2 : string,
           Py.split "-" s = [g0; g1; g2] ->
           Py.int g1 = Ok (n_mid_1 c)
           /\ n_mid_0 c = 0
           /\ n_mid_2 c = 0
           /\ forall (order : Z) (sub : bool),
               line_of (resolve c order sub) <> Some "mid_0"
               /\ line_of (resolve c order sub) <> Some "mid_2").
Proof.
  intros s c Hparse _.
  destruct (formation_counts_nonneg s c Hparse) as (Hd & H0 & H1 & H2 & Ha).
  pose proof (formation_counts_inv s c Hparse) as Hinv. cbv zeta in Hinv.
  destruct Hinv as (_ & _ & Hmid).
  split; [|split].
  - intros order sub Ho. cbv zeta. unfold resolve.
    split; [|split; [|split; [|split]]]; intros Hpos Hwin.
    + apply defense_window. lia.
    + apply mid_0_window; lia.
    + apply mid_1_window; lia.
    + apply mid_2_window; lia.
    + apply ata_window; lia.
  - intros g0 g1 g2 g3 Hs. rewrite Hs in Hmid. cbn in Hmid.
    destruct Hmid as [(_ & E0 & E1 & E2) | (L & _)]; [|now elim L].
    repeat split; auto.
    intros order sub. now apply mid_1_empty.
  - intros g0 g1 g2 Hs. rewrite Hs in Hmid. cbn in Hmid.
    destruct Hmid as [(L & _) | (_ & E0 & E1 & E2)]; [discriminate L|].
    repeat split; auto.
    + now apply mid_0_empty.
    + now apply mid_2_empty.
Qed.

Lemma C1_groups_in_fixed_order_witness :
  resolve {| n_def := 4; n_mid_0 := 2; n_mid_1 := 0; n_mid_2 := 3;
             n_ata := 1 |} 7 false
  = (Some "mid_0", Some "2/2", Some "MED")
  /\ (forall (order : Z) (sub : bool),
         line_of (resolve {| n_def := 4; n_mid_0 := 2; n_mid_1 := 0;
                             n_mid_2 := 3; n_ata := 1 |} order sub)
         <> Some "mid_1").
Proof.
  destruct (C1_groups_in_fixed_order "4-2-3-1"
              {| n_def := 4; n_mid_0 := 2; n_mid_1 := 0; n_mid_2 := 3;
                 n_ata := 1 |} eq_refl (or_intror eq_refl))
    as (W & F4 & _).
  split.
  - destruct (W 7 false ltac:(lia)) as (_ & M0 & _).
    apply M0; cbn; lia.
  - destruct (F4 "4" "2" "3" "1" eq_refl) as (_ & _ & _ & N). exact N.
Defined.

(** ** Lateral slots *)

Lemma str_inj (x y : Z) : Py.str x = Py.str y -> x = y.
Proof.
  unfold Py.str. intros H.
  assert (N : forall z, NilZero.int_of_string
                          (NilZero.string_of_int (Z.to_int z))
                        = Some (Z.to_int z)).
  { intros z. apply NilZero.isi; destruct z; cbn; try discriminate;
      intros [= E]; now apply (DecimalPos.Unsigned.to_uint_nonnil p). }
  apply (f_equal NilZero.int_of_string) in H. rewrite !N in H.
  injection H as H. apply (f_equal Z.of_int) in H.
  now rewrite !DecimalZ.of_to in H.
Qed.

Lemma string_of_uint_no_slash (u : Decimal.uint) :
  all_chars (not_char "/") (NilEmpty.string_of_uint u) = true.
Proof. induction u; cbn; auto. Qed.

Lemma str_no_slash (z : Z) : all_chars (not_char "/") (Py.str z) = true.
Proof.
  unfold Py.str.
  assert (U : forall u, all_chars (not_char "/") (NilZero.string_of_uint u)
                        = true).
  { intros u. destruct u; try reflexivity; apply string_of_uint_no_slash. }
  destruct (Z.to_int z); cbn [NilZero.string_of_int]; [apply U|].
  change (not_char "/" "-" && all_chars (not_char "/")
                                (NilZero.string_of_uint d) = true).
  now rewrite U.
Qed.

(** Two strings cut at their first separator agree part by part. *)
Lemma append_sep_inj (sep : ascii) (x x' y y' : string) :
  all_chars (not_char sep) x = true ->
  all_chars (not_char sep) x' = true ->
  (x ++ String sep y)%string = (x' ++ String sep y')%string ->
  x = x' /\ y = y'.
Proof.
  revert x'. induction x as [|c r IH]; intros [|c' r'] Hx Hx' E; cbn in *.
  - injection E as ->. now split.
  - injection E as <- E. apply andb_true_iff in Hx' as [Hc _].
    unfold not_char in Hc. now rewrite Ascii.eqb_refl in Hc.
  - injection E as -> E. apply andb_true_iff in Hx as [Hc _].
    unfold not_char in Hc. now rewrite Ascii.eqb_refl in Hc.
  - injection E as -> E.
    apply andb_true_iff in Hx as [_ Hx]. apply andb_true_iff in Hx' as [_ Hx'].
    destruct (IH r' Hx Hx' E) as [-> ->]. now split.
Qed.

(** The slot string determines its numerator and denominator. *)
Lemma lat_str_inj (k n k' n' : Z) :
  lat_str k n = lat_str k' n' -> k = k' /\ n = n'.
Proof.
  unfold lat_str. intros E.
  apply append_sep_inj in E; try apply str_no_slash.
  destruct E as [Ek En]. split; now apply str_inj.
Qed.

(** The line depends on the order alone, never on the flag. *)
Lemma line_flag_free (c : counts) (order : Z) (sub sub' : bool) :
  line_of (resolve c order sub) = line_of (resolve c order sub').
Proof. cascade; destruct sub'; reflexivity. Qed.

(** From order 1 on, a slot comes with a line, and its numerator and
    denominator are the rank in the group and the group's size. *)
Lemma slot_in_group (c : counts) (order : Z) (sub : bool) (s : string) :
  1 <= order ->
  lat_of (resolve c order sub) = Some s ->
  exists (l : string) (k n : Z),
    line_of (resolve c order sub) = Some l
    /\ s = lat_str k n /\ 1 <= k <= n /\ n = group_size c l.
Proof.
  intros Ho. unfold resolve, determine_position.
  repeat match goal with
    | |- context [?x =? ?y] => destruct (Z.eqb_spec x y)
    | |- context [?x <=? ?y] => destruct (Z.leb_spec x y)
    end;
    cbn [lat_of line_of fst snd].
  1: intros [= <-]; exists "por", 1, 1; repeat split; lia.
  1-5: intros [= <-]; do 3 eexists;
    (split; [reflexivity | split; [reflexivity | split; [lia | reflexivity]]]).
  destruct ((11 <? order) && sub); [discriminate|].
  destruct ((11 <? order) && negb sub); discriminate.
Qed.

(** ** Counting the players of a line *)

(** Only the six labels are ever assigned. *)
Lemma line_in_lines (c : counts) (order : Z) (sub : bool) (l : string) :
  line_of (resolve c order sub) = Some l -> In l lines.
Proof.
  unfold resolve, determine_position, lines.
  repeat match goal with
    | |- context [?x =? ?y] => destruct (Z.eqb_spec x y)
    | |- context [?x <=? ?y] => destruct (Z.leb_spec x y)
    end;
    cbn [line_of fst snd In].
  1-6: intros [= <-]; tauto.
  destruct ((11 <? order) && sub); [discriminate|].
  destruct ((11 <? order) && negb sub); discriminate.
Qed.

(** With non-negative counts a line is assigned exactly on its window. *)
Lemma line_window (c : counts) (order : Z) (sub : bool) (l : string) :
  counts_nonneg c -> 1 <= order -> In l lines ->
  line_of (resolve c order sub) = Some l
  <-> fst (window c l) < order <= snd (window c l).
Proof.
  intros (Hd & H0 & H1 & H2 & Ha) Ho Hl.
  unfold lines in Hl. cbn [In] in Hl.
  destruct Hl as [<-|[<-|[<-|[<-|[<-|[<-|[]]]]]]];
    cbn [window String.eqb Ascii.eqb Bool.eqb fst snd];
    unfold resolve, determine_position;
    repeat match goal with
      | |- context [?x =? ?y] => destruct (Z.eqb_spec x y)
      | |- context [?x <=? ?y] => destruct (Z.leb_spec x y)
      end;
    cbn [line_of fst snd];
    try (split; [intros E; try discriminate E; lia
                | intros W; try lia; reflexivity]).
  all: destruct ((11 <? order) && sub);
    [|destruct ((11 <? order) && negb sub)];
    cbn [line_of fst snd];
    (split; [intros E; discriminate E | intros W; lia]).
Qed.

Lemma r_line_player_row (c : counts) (j : nat) (p : player) :
  r_line (player_row c j p)
  = line_of (resolve c (Z.of_nat j + 1) (substitute p)).
Proof.
  unfold player_row.
  now destruct (resolve c (Z.of_nat j + 1) (substitute p)) as [[line lat] pos].
Qed.

Lemma r_lat_player_row (c : counts) (j : nat) (p : player) :
  r_lat (player_row c j p)
  = lat_of (resolve c (Z.of_nat j + 1) (substitute p)).
Proof.
  unfold player_row.
  now destruct (resolve c (Z.of_nat j + 1) (substitute p)) as [[line lat] pos].
Qed.

Lemma on_line_iff (l : string) (r : lineup_row) :
  on_line l r = true <-> r_line r = Some l.
Proof.
  unfold on_line. destruct (r_line r) as [l'|].
  - rewrite String.eqb_eq. split; [now intros -> | now intros [= ->]].
  - split; discriminate.
Qed.

(** The rows from index [j] on that fall on a line with window
    [(lo, hi]] are counted by the overlap of the window with the orders
    [j + 1 .. j + length ps]. *)
Lemma count_line_overlap (c : counts) (l : string) (lo hi : Z) :
  (forall order sub, 1 <= order ->
      line_of (resolve c order sub) = Some l <-> lo < order <= hi) ->
  forall (ps : list player) (j : nat),
    count_line l (team_data c j ps)
    = Z.max 0 (Z.min hi (Z.of_nat j + Z.of_nat (List.length ps))
               - Z.max lo (Z.of_nat j)).
Proof.
  intros W. induction ps as [|p ps IH]; intros j.
  - cbn. lia.
  - specialize (IH (S j)). unfold count_line in *.
    cbn [team_data filter List.length].
    pose proof (on_line_iff l (player_row c j p)) as Hon.
    rewrite r_line_player_row, W in Hon by lia.
    destruct (on_line l (player_row c j p)).
    + assert (lo < Z.of_nat j + 1 <= hi) by now apply Hon.
      cbn [List.length]. lia.
    + assert (~ lo < Z.of_nat j + 1 <= hi) by (intros X; now apply Hon in X).
      lia.
Qed.

(** With at least [1 + outfield] players in lineup order, every line
    holds as many rows as its group has members. *)
Lemma count_line_group (c : counts) (l : string) (ps : list player) :
  counts_nonneg c -> In l lines ->
  1 + outfield c <= Z.of_nat (List.length ps) ->
  count_line l (team_data c 0 ps) = group_size c l.
Proof.
  intros Hc Hl Hn.
  rewrite (count_line_overlap c l (fst (window c l)) (snd (window c l))).
  - destruct Hc as (Hd & H0 & H1 & H2 & Ha). unfold outfield in Hn.
    unfold lines in Hl. cbn [In] in Hl.
    destruct Hl as [<-|[<-|[<-|[<-|[<-|[<-|[]]]]]]];
      cbn [window group_size String.eqb Ascii.eqb Bool.eqb fst snd]; lia.
  - intros order sub Ho. now apply line_window.
Qed.

(** C4: from order 1 on, a lateral slot ['k/n'] comes with a line; the
    string fixes k and n; 1 <= k <= n, so n is never 0; n is the size of
    the line's group; and for a team of at least 1 + def + mid0 + mid1 +
    mid2 + ata players in lineup order, with non-negative counts, n is the
    number of that team's rows on the same line. *)
Theorem C4_slot_fraction :
  forall (c : counts) (order : Z) (sub : bool) (s : string),
    1 <= order ->
    lat_of (resolve c order sub) = Some s ->
    exists (l : string) (k n : Z),
      line_of (resolve c order sub) = Some l
      /\ s = lat_str k n
      /\ (forall k' n' : Z, s = lat_str k' n' -> k' = k /\ n' = n)
      /\ 1 <= k <= n
      /\ n <> 0
      /\ n = group_size c l
      /\ (forall ps : list player,
             counts_nonneg c ->
             1 + outfield c <= Z.of_nat (List.length ps) ->
             count_line l (team_data c 0 ps) = n).
Proof.
  intros c order sub s Ho Hs.
  destruct (slot_in_group c order sub s Ho Hs) as (l & k & n & Hl & E & B & G).
  exists l, k, n.
  split; [exact Hl|]. split; [exact E|]. split.
  { intros k' n' E'. rewrite E in E'. apply lat_str_inj in E'.
    destruct E' as [-> ->]. now split. }
  split; [exact B|]. split; [lia|]. split; [exact G|].
  intros ps Hc Hn. rewrite G. apply count_line_group; auto.
  eapply line_in_lines, Hl.
Qed.

Lemma C4_slot_fraction_witness :
  exists (l : string) (k n : Z),
    line_of (resolve c_4_2_3_1 9 false) = Some l
    /\ "2/3" = lat_str k n
    /\ (forall k' n' : Z, "2/3" = lat_str k' n' -> k' = k /\ n' = n)
    /\ 1 <= k <= n
    /\ n <> 0
    /\ n = group_size c_4_2_3_1 l
    /\ (forall ps : list player,
           counts_nonneg c_4_2_3_1 ->
           1 + outfield c_4_2_3_1 <= Z.of_nat (List.length ps) ->
           count_line l (team_data c_4_2_3_1 0 ps) = n).
Proof.
  apply (C4_slot_fraction c_4_2_3_1 9 false "2/3"); [lia | reflexivity].
Defined.

(** ** The merge with the average positions *)

Section Merge.

Context {L R : Type} (key_l : L -> Z) (key_r : R -> Z).

(** A left row never disappears in the merge. *)
Lemma merge_left_keeps (left : list L) (right : list R) (l : L) :
  In l left -> In l (map fst (Pd.merge_left key_l key_r left right)).
Proof.
  intros Hl. unfold Pd.merge_left. rewrite in_map_iff.
  destruct (filter (fun r => key_r r =? key_l l) right) as [|r rs] eqn:F.
  - exists (l, None). split; [reflexivity|].
    apply in_flat_map. exists l. split; [exact Hl|]. rewrite F. now left.
  - exists (l, Some r). split; [reflexivity|].
    apply in_flat_map. exists l. split; [exact Hl|]. rewrite F. now left.
Qed.

(** A merged row has missing right columns exactly when no right row
    carries its key. *)
Lemma merge_left_missing (left : list L) (right : list R) (m : L * option R) :
  In m (Pd.merge_left key_l key_r left right) ->
  snd m = None <-> ~ In (key_l (fst m)) (map key_r right).
Proof.
  unfold Pd.merge_left. rewrite in_flat_map. intros (l & _ & Hm).
  destruct (filter (fun r => key_r r =? key_l l) right) as [|r rs] eqn:F.
  - destruct Hm as [<-|[]]. cbn. split; [|reflexivity].
    intros _ Hin. apply in_map_iff in Hin as (r & Hk & Hr).
    assert (X : In r (filter (fun r => key_r r =? key_l l) right)).
    { apply filter_In. split; [exact Hr|]. now apply Z.eqb_eq. }
    now rewrite F in X.
  - apply in_map_iff in Hm as (r' & <- & Hr'). cbn. split; [discriminate|].
    intros N. exfalso. apply N. rewrite <- F in Hr'.
    apply filter_In in Hr' as [Hr' Hk]. apply Z.eqb_eq in Hk.
    rewrite <- Hk. now apply in_map.
Qed.

Lemma filter_key_nodup (right : list R) (k : Z) :
  NoDup (map key_r right) ->
  (List.length (filter (fun r => (key_r r =? k)%Z) right) <= 1)%nat.
Proof.
  induction right as [|r rs IH]; cbn; [lia|].
  intros N. inversion N as [|? ? Hnot Hrest]; subst.
  destruct (Z.eqb_spec (key_r r) k) as [E|E]; [|now apply IH].
  cbn. enough (filter (fun r0 => key_r r0 =? k) rs = []) as -> by (cbn; lia).
  destruct (filter (fun r0 => key_r r0 =? k) rs) as [|x xs] eqn:F; [easy|].
  exfalso. apply Hnot.
  assert (X : In x (filter (fun r0 => key_r r0 =? k) rs))
    by (rewrite F; now left).
  apply filter_In in X as [Hx Hk]. apply Z.eqb_eq in Hk.
  rewrite E, <- Hk. now apply in_map.
Qed.

(** With pairwise distinct right keys the merge yields the left rows
    once each, in order. *)
Lemma merge_left_once (left : list L) (right : list R) :
  NoDup (map key_r right) ->
  map fst (Pd.merge_left key_l key_r left right) = left.
Proof.
  intros N. unfold Pd.merge_left.
  induction left as [|l ls IH]; cbn [flat_map]; [reflexivity|].
  rewrite map_app, IH. pose proof (filter_key_nodup right (key_l l) N) as B.
  destruct (filter (fun r => key_r r =? key_l l) right) as [|r [|r' rs]];
    cbn in *; [reflexivity | reflexivity | lia].
Qed.

End Merge.

(** ** The loop over a side's players *)

Lemma average_row_bound (a : avg_player) :
  average_row {| avg_id := Some (avg_player_id a);
                 averageX := Some (avg_averageX a);
                 averageY := Some (avg_averageY a);
                 pointsCount := Some (avg_pointsCount a) |} = Ok a.
Proof. now destruct a. Qed.

Lemma average_row_unbound : average_row unbound = Raise UnboundLocalError.
Proof. reflexivity. Qed.

Lemma skipn_nth_error {A} (l : list A) (j : nat) (a : A) :
  nth_error l j = Some a -> skipn j l = a :: skipn (S j) l.
Proof.
  revert l. induction j as [|j IH]; intros [|x l] E; try discriminate.
  - now injection E as ->.
  - cbn in E. cbn [skipn]. now apply IH.
Qed.

(** The lineup rows of a loop that returns are those of
    [create_team_df]: the averages do not touch them. *)
Lemma players_loop_rows (c : counts) (avgs : list avg_player) :
  forall (ps : list player) (j : nat) (st st' : locals)
         (rows : list lineup_row) (avg_rows : list avg_player),
    players_loop c avgs j ps st = (Ok (rows, avg_rows), st') ->
    rows = team_data c j ps /\ List.length avg_rows = List.length ps.
Proof.
  induction ps as [|p ps IH]; intros j st st' rows avg_rows H;
    cbn [players_loop team_data] in *.
  - injection H as <- <- _. now split.
  - destruct (average_row (assign_average avgs j st)) as [a|e];
      [|discriminate].
    destruct (players_loop c avgs (S j) ps (assign_average avgs j st))
      as [[[rows' avg'] | e] st2] eqn:E; [|discriminate].
    injection H as <- <- _. apply IH in E as [-> E]. cbn. now rewrite E.
Qed.

(** With a sample for every index the loop returns, and the average rows
    are the samples in order. *)
Lemma players_loop_aligned (c : counts) (avgs : list avg_player) :
  forall (ps : list player) (j : nat) (st : locals),
    (j + List.length ps <= List.length avgs)%nat ->
    exists st',
      players_loop c avgs j ps st
      = (Ok (team_data c j ps, firstn (List.length ps) (skipn j avgs)), st').
Proof.
  induction ps as [|p ps IH]; intros j st Hlen;
    cbn [players_loop team_data List.length firstn] in *.
  - now exists st.
  - assert (Hj : (j < List.length avgs)%nat) by lia.
    destruct (nth_error avgs j) as [a|] eqn:E;
      [|apply nth_error_None in E; lia].
    unfold assign_average. apply Nat.ltb_lt in Hj. rewrite Hj, E.
    rewrite average_row_bound.
    destruct (IH (S j)
                {| avg_id := Some (avg_player_id a);
                   averageX := Some (avg_averageX a);
                   averageY := Some (avg_averageY a);
                   pointsCount := Some (avg_pointsCount a) |})
      as [st' ->]; [lia|].
    exists st'. now rewrite (skipn_nth_error avgs j a E).
Qed.

(** The first player without a sample raises while the names are still
    unbound. *)
Lemma players_loop_unbound (c : counts) (p : player) (ps : list player) :
  players_loop c [] 0 (p :: ps) unbound = (Raise UnboundLocalError, unbound).
Proof. reflexivity. Qed.

Lemma team_data_ids (c : counts) (ps : list player) :
  forall j, map r_id (team_data c j ps) = map id ps.
Proof.
  induction ps as [|p ps IH]; intros j; cbn [team_data map]; [reflexivity|].
  rewrite IH. f_equal. unfold player_row.
  now destruct (resolve c (Z.of_nat j + 1) (substitute p)) as [[line lat] pos].
Qed.

Lemma create_team_df_ids (ps : list player) (f : string) (c : counts)
    (team_name : string) (is_home : bool) :
  map (fun t => r_id (t_row t)) (create_team_df ps f c team_name is_home)
  = map id ps.
Proof.
  unfold create_team_df. rewrite map_map. cbn [with_team_columns t_row].
  apply team_data_ids.
Qed.

(** A finished event with parsable formations and a sample for every
    player: the merge of both teams' rows with the samples in use. *)
Lemma finished_event_aligned (home away : side) (st : locals)
    (hc ac : counts) :
  formation_counts (formation home) = Ok hc ->
  formation_counts (formation away) = Ok ac ->
  (List.length (players home) <= List.length (average_positions home))%nat ->
  (List.length (players away) <= List.length (average_positions away))%nat ->
  fst (finished_event home away st)
  = Ok (Pd.merge_left (fun t => r_id (t_row t)) avg_player_id
          (create_team_df (players home) (formation home) hc
             (shortName home) true
           ++ create_team_df (players away) (formation away) ac
                (shortName away) false)
          (firstn (List.length (players home)) (average_positions home)
           ++ firstn (List.length (players away)) (average_positions away))).
Proof.
  intros Hh Ha Lh La. unfold finished_event. rewrite Hh, Ha.
  destruct (players_loop_aligned hc (average_positions home) (players home)
              0 st Lh) as [st1 ->].
  destruct (players_loop_aligned ac (average_positions away) (players away)
              0 st1 La) as [st2 ->].
  reflexivity.
Qed.

(** On such an event, with pairwise distinct sample identifiers, every
    roster entry gives one row, home rows first; and when the samples carry
    the roster's identifiers index by index, no row lacks its averages. *)
Lemma aligned_event_rows (home away : side) (st : locals) (hc ac : counts) :
  formation_counts (formation home) = Ok hc ->
  formation_counts (formation away) = Ok ac ->
  map avg_player_id (average_positions home) = map id (players home) ->
  map avg_player_id (average_positions away) = map id (players away) ->
  exists rows,
    fst (finished_event home away st) = Ok rows
    /\ (forall m, In m rows -> snd m <> None)
    /\ (NoDup (map id (players home) ++ map id (players away)) ->
        map fst rows
        = create_team_df (players home) (formation home) hc
            (shortName home) true
          ++ create_team_df (players away) (formation away) ac
               (shortName away) false).
Proof.
  intros Hh Ha Ih Ia.
  assert (Lh : List.length (average_positions home)
               = List.length (players home))
    by (rewrite <- (length_map avg_player_id), Ih; apply length_map).
  assert (La : List.length (average_positions away)
               = List.length (players away))
    by (rewrite <- (length_map avg_player_id), Ia; apply length_map).
  eexists. split;
    [apply (finished_event_aligned home away st hc ac); try assumption; lia|].
  rewrite <- Lh, <- La, !firstn_all.
  assert (K : map avg_player_id
                (average_positions home ++ average_positions away)
              = map id (players home) ++ map id (players away))
    by now rewrite map_app, Ih, Ia.
  split.
  - intros m Hm N.
    pose proof (merge_left_missing _ _ _ _ m Hm) as [M _].
    apply (M N). rewrite K.
    assert (Hl : In (fst m)
                   (create_team_df (players home) (formation home) hc
                      (shortName home) true
                    ++ create_team_df (players away) (formation away) ac
                         (shortName away) false)).
    { unfold Pd.merge_left in Hm. apply in_flat_map in Hm as (l & Hl & Hm).
      destruct (filter _ _) in Hm.
      - destruct Hm as [<-|[]]. exact Hl.
      - apply in_map_iff in Hm as (r' & <- & _). exact Hl. }
    apply (in_map (fun t => r_id (t_row t))) in Hl.
    now rewrite map_app, !create_team_df_ids in Hl.
  - intros N. apply merge_left_once. now rewrite K.
Qed.

(** ** The batch *)

(** An event that raises or is not finished leaves the frames and the
    locals as they were, and the loop goes on with the next event. *)
Lemma event_step_skipped (ev : event) (rest : list event)
    (dfs : list (list merged_row)) (st : locals) :
  is_finished ev = false ->
  events_loop (ev :: rest) dfs st = events_loop rest dfs st.
Proof. destruct ev; [reflexivity | reflexivity | discriminate]. Qed.

(** An event adds at most one frame, behind those already collected. *)
Lemma event_step_extends (ev : event) (dfs : list (list merged_row))
    (st : locals) :
  exists extra,
    fst (event_step ev dfs st) = dfs ++ extra /\ (List.length extra <= 1)%nat.
Proof.
  destruct ev as [e| |home away]; cbn [event_step].
  1-2: exists []; rewrite app_nil_r; split; [reflexivity | cbn; lia].
  destruct (finished_event home away st) as [[df|e] st'].
  - exists [df]. split; [reflexivity | cbn; lia].
  - exists []. rewrite app_nil_r. split; [reflexivity | cbn; lia].
Qed.

Lemma events_loop_none_finished (events : list event)
    (dfs : list (list merged_row)) (st : locals) :
  forallb (fun ev => negb (is_finished ev)) events = true ->
  events_loop events dfs st = (dfs, st).
Proof.
  induction events as [|ev rest IH]; [reflexivity|].
  cbn [forallb]. intros H. apply andb_true_iff in H as [Hev Hrest].
  apply negb_true_iff in Hev. rewrite event_step_skipped by exact Hev.
  now apply IH.
Qed.

(** A batch in which no event delivers a finished match ends in the
    [ValueError] of the final [pd.concat]. *)
Lemma batch_without_frames_raises (events : list event) :
  forallb (fun ev => negb (is_finished ev)) events = true ->
  get_lineups_from_events events = Raise ValueError.
Proof.
  intros H. unfold get_lineups_from_events.
  now rewrite events_loop_none_finished.
Qed.

(** The first finished event of a batch whose home side has players but
    no average positions raises [UnboundLocalError]. *)
Lemma first_event_without_samples (home away : side) (hc ac : counts) :
  formation_counts (formation home) = Ok hc ->
  formation_counts (formation away) = Ok ac ->
  players home <> [] ->
  average_positions home = [] ->
  finished_event home away unbound = (Raise UnboundLocalError, unbound).
Proof.
  intros Hh Ha Hp Hs. unfold finished_event. rewrite Hh, Ha, Hs.
  destruct (players home) as [|p ps]; [now elim Hp|].
  now rewrite players_loop_unbound.
Qed.

(** C6: on the first event of a batch, a home roster of one player with an
    empty average-position list raises [UnboundLocalError] at line 398; the
    [except] swallows it and the match contributes no frame. *)
Theorem C6_empty_sample_list_skips_match :
  finished_event home_no_avg away_full unbound
  = (Raise UnboundLocalError, unbound)
  /\ event_step (Finished home_no_avg away_full) [] unbound = ([], unbound).
Proof. split; reflexivity. Qed.

(** C7: with two home players and one home sample, the stale sample is
    appended a second time and the left merge yields the first player's
    row twice: four rows for three roster entries. *)
Theorem C7_short_sample_list_duplicates_row :
  exists rows,
    get_lineups_from_events [Finished home_short away_full] = Ok rows
    /\ map m_id rows = [1; 1; 2; 3]
    /\ map m_pointsCount rows = [Some 10; Some 10; None; Some 10]
    /\ map id (players home_short ++ players away_full) = [1; 2; 3].
Proof.
  eexists. split; [vm_compute; reflexivity|]. repeat split.
Qed.

(** C8: a batch in which every event fails, and the empty batch, end in
    the [ValueError] of [pd.concat] on an empty list, where the guarded
    concatenation of [get_heatmap_from_players] gives an empty table. *)
Theorem C8_all_failed_batch_raises :
  get_lineups_from_events [] = Raise ValueError
  /\ get_lineups_from_events
       [Failed RequestException; Finished home_bad_group away_full]
     = Raise ValueError
  /\ concat_guarded
       (fst (events_loop
               [Failed RequestException; Finished home_bad_group away_full]
               [] unbound))
     = Ok [].
Proof. repeat split. Qed.

(** ** Rejected formation strings *)




(** A formation string with a single group is always rejected. *)
Lemma single_group_rejected (s : string) :
  List.length (Py.split "-" s) = 1%nat -> consulted_groups_numeric s = false.
Proof.
  unfold consulted_groups_numeric. cbv zeta.
  destruct (Py.split "-" s) as [|g [|g' gs]]; try discriminate.
  intros _. cbn. now rewrite andb_false_r.
Qed.




(** * Further properties of [pvd_Sofascore.py] *)

(** ** Match results *)

Lemma results_loop_ok (events : list results_event) :
  forall dfs,
    forallb request_ok events = true ->
    results_loop events dfs
    = Ok (dfs ++ map results_frame (filter is_finished_result events)).
Proof.
  induction events as [|ev rest IH]; intros dfs H; cbn [results_loop filter].
  - cbn. now rewrite app_nil_r.
  - cbn [forallb] in H. apply andb_true_iff in H as [Hev Hrest].
    unfold request_ok in Hev.
    destruct (ev_data ev) as [d|e] eqn:D; [|discriminate]. cbn [Py.bind].
    assert (F : is_finished_result ev = String.eqb (status_type d) "finished")
      by (unfold is_finished_result; now rewrite D).
    rewrite F. destruct (String.eqb (status_type d) "finished").
    + rewrite IH by exact Hrest. cbn [map].
      assert (R : results_frame ev
                  = [home_dic (ev_id ev) d; away_dic (ev_id ev) d])
        by (unfold results_frame; now rewrite D).
      rewrite R, <- app_assoc. reflexivity.
    + now apply IH.
Qed.

(** The rows returned when every request answers and some event is
    finished. *)
Lemma results_rows (events : list results_event) :
  forallb request_ok events = true ->
  filter is_finished_result events <> [] ->
  get_results_from_events events
  = Ok (List.concat (map results_frame (filter is_finished_result events))).
Proof.
  intros H N. unfold get_results_from_events.
  rewrite results_loop_ok by exact H. cbn [List.app Py.bind].
  destruct (filter is_finished_result events); [now elim N | reflexivity].
Qed.

Lemma finished_frame (ev : results_event) :
  is_finished_result ev = true ->
  exists d, results_frame ev = [home_dic (ev_id ev) d; away_dic (ev_id ev) d].
Proof.
  unfold is_finished_result, results_frame.
  destruct (ev_data ev) as [d|e]; [|discriminate]. intros _. now exists d.
Qed.

Lemma filter_all {A} (f : A -> bool) (l : list A) :
  Forall (fun x => f x = true) (filter f l).
Proof.
  apply Forall_forall. intros x Hx. now apply filter_In in Hx.
Qed.

Ltac compare_scores d :=
  destruct (Z.gtb_spec (homeScore_display d) (awayScore_display d));
  destruct (Z.eqb_spec (homeScore_display d) (awayScore_display d));
  destruct (Z.ltb_spec (homeScore_display d) (awayScore_display d));
  destruct (Z.gtb_spec (awayScore_display d) (homeScore_display d));
  destruct (Z.eqb_spec (awayScore_display d) (homeScore_display d));
  destruct (Z.ltb_spec (awayScore_display d) (homeScore_display d));
  try lia.

(** Properties of the rows of a list of finished events. *)
Lemma finished_frames_rows (l : list results_event) :
  Forall (fun ev => is_finished_result ev = true) l ->
  let rows := List.concat (map results_frame l) in
  List.length rows = (2 * List.length l)%nat
  /\ map res_local rows = List.concat (map (fun _ => ["Home"; "Away"]) l)
  /\ Forall (fun r => outcomes r = 1%nat) rows
  /\ count_rows win rows = count_rows loose rows
  /\ Nat.Even (count_rows draw rows).
Proof.
  cbv zeta. induction 1 as [|ev l Hev Hl IH]; cbn [map List.concat].
  - repeat split; try constructor. now exists 0%nat.
  - destruct (finished_frame ev Hev) as [d ->].
    destruct IH as (L & P & O & W & [k D]).
    unfold count_rows in *. cbn [List.app List.length map filter].
    rewrite L, P.
    split; [lia|]. split; [reflexivity|]. split; [|split].
    + constructor; [|constructor; [|exact O]];
        unfold outcomes, home_dic, away_dic; cbn [win draw loose];
        compare_scores d; reflexivity.
    + unfold home_dic, away_dic; cbn [win draw loose];
        compare_scores d; cbn [List.length]; congruence.
    + unfold home_dic, away_dic; cbn [win draw loose];
        compare_scores d; cbn [List.length];
        first [exists k; lia | exists (S k); lia].
Qed.

Lemma results_loop_raises (pre post : list results_event)
    (event : results_event) (e : exn) :
  forall dfs,
    forallb request_ok pre = true ->
    ev_data event = Raise e ->
    results_loop (pre ++ event :: post) dfs = Raise e.
Proof.
  induction pre as [|ev rest IH]; intros dfs H E;
    cbn [results_loop List.app].
  - now rewrite E.
  - cbn [forallb] in H. apply andb_true_iff in H as [Hev Hrest].
    unfold request_ok in Hev.
    destruct (ev_data ev) as [d|e']; [|discriminate]. cbn [Py.bind].
    destruct (String.eqb (status_type d) "finished"); now apply IH.
Qed.

Lemma results_loop_answered (events : list results_event) :
  forall dfs dfs',
    results_loop events dfs = Ok dfs' -> forallb request_ok events = true.
Proof.
  induction events as [|ev rest IH]; intros dfs dfs' H; [reflexivity|].
  cbn [results_loop forallb] in *. unfold request_ok at 1.
  destruct (ev_data ev) as [d|e]; [|discriminate]. cbn [Py.bind andb] in *.
  destruct (String.eqb (status_type d) "finished"); eapply IH, H.
Qed.

(** A returned table consists of the frames of the finished events. *)
Lemma results_ok_inv (events : list results_event) (rows : list result_row) :
  get_results_from_events events = Ok rows ->
  forallb request_ok events = true
  /\ filter is_finished_result events <> []
  /\ rows = List.concat (map results_frame (filter is_finished_result events)).
Proof.
  intros H.
  assert (A : forallb request_ok events = true).
  { unfold get_results_from_events in H.
    destruct (results_loop events []) as [dfs|e] eqn:E; [|discriminate].
    eapply results_loop_answered, E. }
  split; [exact A|].
  destruct (filter is_finished_result events) as [|ev l] eqn:F.
  - unfold get_results_from_events in H.
    rewrite results_loop_ok, F in H by exact A. discriminate.
  - split; [discriminate|].
    rewrite results_rows in H by (try exact A; rewrite F; discriminate).
    rewrite F in H. now injection H as <-.
Qed.



(** X2: in every returned table each row has exactly one of win, draw
    and loose set, there are as many winning rows as losing rows, and the
    number of draw rows is even. *)
Theorem results_outcomes_consistent :
  forall (events : list results_event) (rows : list result_row),
    get_results_from_events events = Ok rows ->
    Forall (fun r => outcomes r = 1%nat) rows
    /\ count_rows win rows = count_rows loose rows
    /\ Nat.Even (count_rows draw rows).
Proof.
  intros events rows H. apply results_ok_inv in H as (_ & _ & ->).
  destruct (finished_frames_rows (filter is_finished_result events)
              (filter_all _ _)) as (_ & _ & O & W & D).
  now repeat split.
Qed.

Lemma results_outcomes_consistent_witness :
  Forall (fun r => outcomes r = 1%nat)
    (List.concat (map results_frame
                    [a_result "finished" 2 1; a_result "finished" 1 1]))
  /\ count_rows win
       (List.concat (map results_frame
                       [a_result "finished" 2 1; a_result "finished" 1 1]))
     = count_rows loose
         (List.concat (map results_frame
                         [a_result "finished" 2 1; a_result "finished" 1 1]))
  /\ Nat.Even
       (count_rows draw
          (List.concat (map results_frame
                          [a_result "finished" 2 1; a_result "finished" 1 1]))).
Proof.
  apply (results_outcomes_consistent
           [a_result "finished" 2 1; a_result "finished" 1 1]).
  reflexivity.
Defined.

(** X3: no [try] guards the request in [get_results_from_events]: the
    first request that raises ends the whole batch with its exception,
    whatever the events before it delivered and whatever follows. *)
Theorem results_request_failure_aborts_batch :
  forall (pre post : list results_event) (event : results_event) (e : exn),
    forallb request_ok pre = true ->
    ev_data event = Raise e ->
    get_results_from_events (pre ++ event :: post) = Raise e.
Proof.
  intros pre post event e A E. unfold get_results_from_events.
  now rewrite (results_loop_raises pre post event e [] A E).
Qed.

Lemma results_request_failure_aborts_batch_witness :
  get_results_from_events
    ([a_result "finished" 2 1] ++ a_failed_result
       :: [a_result "finished" 0 3])
  = Raise RequestException.
Proof.
  apply (results_request_failure_aborts_batch
           [a_result "finished" 2 1] [a_result "finished" 0 3]
           a_failed_result RequestException); reflexivity.
Defined.

(** X4: when every request answers but no event is finished (the empty
    list included), the final [pd.concat] of [get_results_from_events]
    raises [ValueError]. *)
Theorem results_without_finished_event_raise :
  forall events : list results_event,
    forallb request_ok events = true ->
    filter is_finished_result events = [] ->
    get_results_from_events events = Raise ValueError.
Proof.
  intros events A F. unfold get_results_from_events.
  rewrite results_loop_ok by exact A. now rewrite F.
Qed.

Lemma results_without_finished_event_raise_witness :
  get_results_from_events [a_result "notstarted" 0 0] = Raise ValueError.
Proof.
  apply (results_without_finished_event_raise [a_result "notstarted" 0 0]);
    reflexivity.
Defined.

(** ** Heat maps *)

(** The two-digit year of line 759, for every year a [datetime] holds. *)
Lemma two_digit_year_table :
  forallb (fun y => match Py.int (Py.last_two (Py.str y)) with
                    | Ok t => t =? y mod 100
                    | Raise _ => false
                    end) datetime_years = true.
Proof. vm_compute. reflexivity. Qed.

Lemma two_digit_year (y : Z) :
  1 <= y <= 9999 -> Py.int (Py.last_two (Py.str y)) = Ok (y mod 100).
Proof.
  intros H. pose proof two_digit_year_table as T.
  rewrite forallb_forall in T. specialize (T y).
  destruct (Py.int (Py.last_two (Py.str y))) as [t|e].
  - f_equal. apply Z.eqb_eq, T. unfold datetime_years.
    apply in_map_iff. exists (Z.to_nat y). split; [lia|].
    apply in_seq. lia.
  - assert (X : false = true); [|discriminate X].
    apply T. unfold datetime_years.
    apply in_map_iff. exists (Z.to_nat y). split; [lia|].
    apply in_seq. lia.
Qed.

Lemma int_digits_raises (s : string) :
  forall prev acc e, Py.int_digits prev acc s = Raise e -> e = ValueError.
Proof.
  induction s as [|c r IH]; intros prev acc e; cbn [Py.int_digits].
  - destruct prev; [discriminate | now intros [= <-]].
  - destruct (Py.isdigit c); [apply IH|].
    destruct (Ascii.eqb c "_" && prev); [apply IH | now intros [= <-]].
Qed.

(** [int] raises nothing but [ValueError]. *)
Lemma int_raises (s : string) (e : exn) : Py.int s = Raise e -> e = ValueError.
Proof.
  unfold Py.int. destruct (Py.rstrip (Py.lstrip s)) as [|c r].
  - now intros [= <-].
  - destruct (Ascii.eqb c "+"); [apply int_digits_raises|].
    destruct (Ascii.eqb c "-"); [|apply int_digits_raises].
    destruct (Py.int_digits false 0 r) eqn:E; [discriminate|].
    cbn. intros [= <-]. eapply int_digits_raises, E.
Qed.

Lemma concat_guarded_ok {A} (dfs : list (list A)) :
  concat_guarded dfs = Ok (List.concat dfs).
Proof. now destruct dfs. Qed.

Section RemoteFacts.

Variable api_seasons : Z -> result (list tournament_json).
Variable api_heatmap : Z -> Z -> Z -> result (option (list point_json)).
Variable now_year : Z.


Lemma heatmaps_loop_frames (player_id : Z) (tournaments : list tournament_row) :
  forall dfs,
    heatmaps_loop api_heatmap player_id tournaments dfs
    = dfs ++ map (fun row => get_heatmap api_heatmap player_id
                               (tournaments_id row)
                               (tr_season_id row)) tournaments.
Proof.
  induction tournaments as [|row rest IH]; intros dfs; cbn [heatmaps_loop map].
  - now rewrite app_nil_r.
  - now rewrite IH, <- app_assoc.
Qed.

Lemma heatmap_players_loop_rows (players : list Z) :
  forall dfs,
    List.concat (heatmap_players_loop api_seasons api_heatmap now_year
                   players dfs)
    = List.concat dfs
      ++ flat_map (player_heat_rows api_seasons api_heatmap now_year) players.
Proof.
  induction players as [|p rest IH]; intros dfs;
    cbn [heatmap_players_loop flat_map].
  - now rewrite app_nil_r.
  - destruct (get_player_tournaments api_seasons now_year p) as [ts|e] eqn:E;
      rewrite IH.
    + assert (R : (player_heat_rows api_seasons api_heatmap now_year) p
                  = flat_map (fun row => get_heatmap api_heatmap p
                                           (tournaments_id row)
                                           (tr_season_id row)) ts)
        by (unfold player_heat_rows; now rewrite E).
      rewrite R, heatmaps_loop_frames, concat_app, <- app_assoc.
      now rewrite <- flat_map_concat_map.
    + assert (R : (player_heat_rows api_seasons api_heatmap now_year) p = [])
        by (unfold player_heat_rows; now rewrite E).
      now rewrite R.
Qed.

(** X5: [get_heatmap_from_players] returns a table whatever the remote
    API answers, the empty one when nothing was collected: the rows of
    the players in order, each player's rows being those of its kept
    tournaments in order. *)
Theorem heatmaps_always_returned :
  forall players : list Z,
    get_heatmap_from_players api_seasons api_heatmap now_year players
    = Ok (flat_map (player_heat_rows api_seasons api_heatmap now_year)
            players).
Proof.
  intros players. unfold get_heatmap_from_players.
  now rewrite concat_guarded_ok, heatmap_players_loop_rows.
Qed.

(** X6: a player whose tournaments cannot be read, because the request
    raises or a season year is no number, changes nothing in the result of
    the batch. *)
Theorem heatmaps_skip_failing_player :
  forall (pre post : list Z) (player_id : Z) (e : exn),
    get_player_tournaments api_seasons now_year player_id = Raise e ->
    get_heatmap_from_players api_seasons api_heatmap now_year
      (pre ++ player_id :: post)
    = get_heatmap_from_players api_seasons api_heatmap now_year (pre ++ post).
Proof.
  intros pre post p e E. rewrite !heatmaps_always_returned.
  rewrite !flat_map_app. cbn [flat_map].
  assert (R : player_heat_rows api_seasons api_heatmap now_year p = [])
    by (unfold player_heat_rows; now rewrite E).
  now rewrite R.
Qed.

(** X7: every row of the result carries the identifier of a requested
    player and the league and season of one of that player's kept
    tournaments. *)
Theorem heatmap_rows_provenance :
  forall (players : list Z) (rows : list heat_row) (r : heat_row),
    get_heatmap_from_players api_seasons api_heatmap now_year players = Ok rows ->
    In r rows ->
    In (h_player_id r) players
    /\ exists tournaments row,
         get_player_tournaments api_seasons now_year (h_player_id r)
         = Ok tournaments
         /\ In row tournaments
         /\ tournaments_id row = h_league_id r
         /\ tr_season_id row = h_season_id r.
Proof.
  intros players rows r H Hr. rewrite heatmaps_always_returned in H.
  injection H as <-. apply in_flat_map in Hr as (p & Hp & Hr).
  unfold player_heat_rows in Hr.
  destruct (get_player_tournaments api_seasons now_year p) as [ts|e] eqn:E;
    [|destruct Hr].
  apply in_flat_map in Hr as (row & Hrow & Hr).
  unfold get_heatmap in Hr.
  destruct (api_heatmap p (tournaments_id row) (tr_season_id row))
    as [[points|]|e]; try destruct Hr.
  apply in_map_iff in Hr as (point & <- & _). cbn.
  split; [exact Hp|]. exists ts, row. now rewrite E.
Qed.

Lemma seasons_loop_kept (player_id : Z) (tournament : tournament_json)
    (seasons : list season_json) :
  1 <= now_year <= 9999 ->
  forall tournaments,
    seasons_loop (Py.str now_year) player_id tournament seasons tournaments
    = if forallb season_year_ok seasons
      then Ok (tournaments
               ++ map (fun season =>
                         {| competition_name := sj_name season;
                            tournaments_id := ut_id tournament;
                            tr_season_id := sj_id season;
                            tr_player_id := player_id |})
                      (filter (season_kept now_year) seasons))
      else Raise ValueError.
Proof.
  intros Hy. induction seasons as [|season rest IH]; intros tournaments;
    cbn [seasons_loop forallb filter map].
  - now rewrite app_nil_r.
  - unfold season_year_ok at 1, season_kept at 1.
    destruct (Py.int (Py.last_two (sj_year season))) as [y|e] eqn:E;
      cbn [Py.bind andb].
    + rewrite (two_digit_year now_year Hy). cbn [Py.bind].
      destruct (y >? now_year mod 100 - 2); rewrite IH;
        destruct (forallb season_year_ok rest); try reflexivity.
      cbn [map]. now rewrite <- app_assoc.
    + now rewrite (int_raises _ _ E).
Qed.

Lemma tournaments_loop_kept (player_id : Z) (data : list tournament_json) :
  1 <= now_year <= 9999 ->
  forall tournaments,
    tournaments_loop (Py.str now_year) player_id data tournaments
    = if forallb (fun t => forallb season_year_ok (ut_seasons t)) data
      then Ok (tournaments
               ++ flat_map (tournament_rows now_year player_id) data)
      else Raise ValueError.
Proof.
  intros Hy. induction data as [|t rest IH]; intros tournaments;
    cbn [tournaments_loop forallb flat_map].
  - now rewrite app_nil_r.
  - rewrite seasons_loop_kept by exact Hy.
    destruct (forallb season_year_ok (ut_seasons t)); cbn [Py.bind andb];
      [|reflexivity].
    rewrite IH. unfold tournament_rows at 2.
    destruct (forallb _ rest); [|reflexivity]. now rewrite <- app_assoc.
Qed.

(** X8: for every year a [datetime] holds, [get_player_tournaments]
    keeps, in order, the seasons whose year ends in a two-digit number
    above (year mod 100) - 2, and raises [ValueError] as soon as one season
    year does not end in an integer literal. *)
Theorem player_tournaments_recent_seasons :
  forall (player_id : Z) (data : list tournament_json),
    1 <= now_year <= 9999 ->
    api_seasons player_id = Ok data ->
    get_player_tournaments api_seasons now_year player_id
    = if forallb (fun t => forallb season_year_ok (ut_seasons t)) data
      then Ok (flat_map (tournament_rows now_year player_id) data)
      else Raise ValueError.
Proof.
  intros p data Hy E. unfold get_player_tournaments. rewrite E.
  cbn [Py.bind]. now rewrite tournaments_loop_kept.
Qed.

End RemoteFacts.

Lemma heatmaps_skip_failing_player_witness :
  get_heatmap_from_players demo_seasons demo_heatmap 2024 ([7] ++ 8 :: [7])
  = get_heatmap_from_players demo_seasons demo_heatmap 2024 ([7] ++ [7]).
Proof.
  apply (heatmaps_skip_failing_player demo_seasons demo_heatmap 2024
           [7] [7] 8 RequestException).
  reflexivity.
Defined.

Lemma heatmap_rows_provenance_witness :
  In 7 [7; 8]
  /\ exists tournaments row,
       get_player_tournaments demo_seasons 2024 7 = Ok tournaments
       /\ In row tournaments
       /\ tournaments_id row = 17
       /\ tr_season_id row = 1.
Proof.
  apply (heatmap_rows_provenance demo_seasons demo_heatmap 2024 [7; 8]
           [{| h_x := 10; h_y := 20; h_count := 0; h_player_id := 7;
               h_league_id := 17; h_season_id := 1 |}]
           {| h_x := 10; h_y := 20; h_count := 0; h_player_id := 7;
              h_league_id := 17; h_season_id := 1 |}).
  - reflexivity.
  - left. reflexivity.
Defined.

Lemma player_tournaments_recent_seasons_witness :
  get_player_tournaments demo_seasons 2024 7
  = Ok [{| competition_name := "A"; tournaments_id := 17; tr_season_id := 1;
           tr_player_id := 7 |}].
Proof.
  apply (player_tournaments_recent_seasons demo_seasons 2024 7
           [{| ut_id := 17;
               ut_seasons :=
                 [{| sj_year := "23/24"; sj_name := "A"; sj_id := 1 |};
                  {| sj_year := "2019"; sj_name := "B"; sj_id := 2 |}] |}]).
  - lia.
  - reflexivity.
Defined.

(** ** Teams of a league *)

Lemma mem_In (x : string) (l : list string) :
  Py.mem x l = true <-> In x l.
Proof.
  unfold Py.mem. rewrite existsb_exists. split.
  - intros (y & Hy & E). apply String.eqb_eq in E. now subst.
  - intros H. exists x. split; [exact H | apply String.eqb_refl].
Qed.

Lemma append_inj_l (p x y : string) :
  (p ++ x)%string = (p ++ y)%string -> x = y.
Proof. induction p as [|c p IH]; cbn; [easy|]. intros [= E]. now apply IH. Qed.

Lemma index_lt {A} (l : list A) (j : nat) :
  (j < List.length l)%nat -> exists a, Py.index l j = Ok a /\ nth_error l j = Some a.
Proof.
  intros H. unfold Py.index. destruct (nth_error l j) as [a|] eqn:E.
  - now exists a.
  - apply nth_error_None in E. lia.
Qed.

Lemma skipn_all_nil {A} (l : list A) (j : nat) :
  (List.length l <= j)%nat -> skipn j l = [].
Proof. intros H. now apply skipn_all2. Qed.

Lemma pair_teams_nil_names (s : standings) (ids : list Z)
    (hrefs : list string) : pair_teams s [] ids hrefs = [].
Proof. reflexivity. Qed.

(** The loop pairs the standing rows from [j] on with the new team links,
    position by position. *)
Lemma team_links_loop_pairs (s : standings) :
  List.length (teams_id s) = List.length (teams_name s) ->
  forall (links seen : list string) (teams_dic : list team_info) (j : nat),
    team_links_loop s links seen teams_dic j
    = Ok (teams_dic
          ++ pair_teams s (skipn j (teams_name s)) (skipn j (teams_id s))
               (filter (Py.contains team_marker)
                  (first_occurrences seen links))).
Proof.
  intros L. induction links as [|href rest IH]; intros seen dic j;
    cbn [team_links_loop first_occurrences filter].
  - destruct (skipn j (teams_name s)) as [|? ?];
      [|destruct (skipn j (teams_id s))]; cbn; now rewrite app_nil_r.
  - destruct (Py.mem href seen); cbn [negb]; [apply IH|].
    cbn [filter]. destruct (Py.contains team_marker href); [|apply IH].
    destruct (Nat.ltb_spec j (List.length (teams_name s))) as [Hj|Hj].
    + destruct (index_lt (teams_name s) j Hj) as (team & -> & En).
      destruct (index_lt (teams_id s) j ltac:(lia)) as (team_id & -> & Ei).
      cbn [Py.bind]. rewrite IH.
      rewrite (skipn_nth_error _ j team En), (skipn_nth_error _ j team_id Ei).
      cbn [pair_teams]. now rewrite <- app_assoc.
    + rewrite IH, (skipn_all_nil (teams_name s) j Hj). reflexivity.
Qed.

Lemma first_occurrences_fresh (links : list string) :
  forall seen,
    NoDup (first_occurrences seen links)
    /\ forall h, In h (first_occurrences seen links) ->
                 In h links /\ ~ In h seen.
Proof.
  induction links as [|href rest IH]; intros seen; cbn [first_occurrences].
  - split; [constructor | intros h []].
  - destruct (Py.mem href seen) eqn:M.
    + destruct (IH seen) as [N F]. split; [exact N|].
      intros h Hh. destruct (F h Hh). split; [now right | assumption].
    + destruct (IH (seen ++ [href])) as [N F]. split.
      * constructor; [|exact N]. intros Hin. apply F in Hin as [_ Hn].
        apply Hn, in_or_app. right. now left.
      * intros h [<-|Hh].
        -- split; [now left|]. intros Hin. apply mem_In in Hin. congruence.
        -- destruct (F h Hh) as [Hr Hn]. split; [now right|].
           intros Hin. apply Hn, in_or_app. now left.
Qed.

Lemma pair_teams_links (s : standings) (hrefs : list string) :
  forall (names : list string) (ids : list Z),
    map ti_link (pair_teams s names ids hrefs)
    = map (String.append site)
          (firstn (Nat.min (List.length names) (List.length ids)) hrefs).
Proof.
  induction hrefs as [|h hrefs IH]; intros [|n names] [|i ids];
    try reflexivity.
  cbn [pair_teams map List.length Nat.min firstn]. now rewrite IH.
Qed.

Lemma pair_teams_rows (s : standings) (hrefs : list string) :
  forall (names : list string) (ids : list Z),
    List.length ids = List.length names ->
    let out := pair_teams s names ids hrefs in
    List.length out = Nat.min (List.length names) (List.length hrefs)
    /\ map ti_team out = firstn (List.length out) names
    /\ map ti_id out = firstn (List.length out) ids.
Proof.
  cbv zeta. induction hrefs as [|h hrefs IH]; intros [|n names] [|i ids] L;
    try discriminate L; try (now repeat split).
  injection L as L. destruct (IH names ids L) as (Hl & Hn & Hi). cbn.
  split; [now f_equal|]. split; now f_equal.
Qed.

Lemma map_append_nodup (p : string) (l : list string) :
  NoDup l -> NoDup (map (String.append p) l).
Proof.
  induction 1 as [|x l Hx N IH]; cbn; constructor; [|exact IH].
  intros Hin. apply in_map_iff in Hin as (y & E & Hy).
  apply append_inj_l in E. now subst.
Qed.

Lemma firstn_In {A} (l : list A) :
  forall (n : nat) (x : A), In x (firstn n l) -> In x l.
Proof.
  induction l as [|y l IH]; intros [|n] x H; cbn in *; try tauto.
  destruct H as [->|H]; [now left | right; eapply IH, H].
Qed.

Lemma firstn_nodup {A} (n : nat) (l : list A) : NoDup l -> NoDup (firstn n l).
Proof.
  revert n. induction l as [|x l IH]; intros [|n] N; cbn; try constructor.
  - inversion N as [|? ? Hx N']; subst. intros Hin. apply Hx.
    eapply firstn_In, Hin.
  - inversion N; subst. now apply IH.
Qed.

Lemma team_hrefs_nodup (links : list string) : NoDup (team_hrefs links).
Proof.
  unfold team_hrefs. apply NoDup_filter.
  apply (first_occurrences_fresh links []).
Qed.

(** What [get_teams_from_league] returns once the URL, the standings and
    the page are read. *)
Lemma teams_from_league_pairs
    (standings_of : string -> string -> result (list standing_json))
    (page : string -> result (list string)) (league_url : string)
    (ids : string * string) (first : standing_json)
    (others : list standing_json) (links : list string) :
  league_ids league_url = Ok ids ->
  standings_of (fst ids) (snd ids) = Ok (first :: others) ->
  page league_url = Ok links ->
  exists s,
    teams_name s = map fst (sg_rows first)
    /\ teams_id s = map snd (sg_rows first)
    /\ get_teams_from_league standings_of page league_url
       = Ok (pair_teams s (teams_name s) (teams_id s) (team_hrefs links)).
Proof.
  intros Hu Hs Hp. eexists. split; [|split]; cycle 2.
  - unfold get_teams_from_league. rewrite Hu. cbn [Py.bind]. rewrite Hs.
    cbn [get_tournament_standing Py.index nth_error Py.bind]. rewrite Hp.
    rewrite team_links_loop_pairs by (cbn; now rewrite !length_map).
    reflexivity.
  - reflexivity.
  - reflexivity.
Qed.

(** X9: the links of the teams returned by [get_teams_from_league] are
    pairwise distinct. *)
Theorem team_links_distinct :
  forall (standings_of : string -> string -> result (list standing_json))
         (page : string -> result (list string)) (league_url : string)
         (out : list team_info),
    get_teams_from_league standings_of page league_url = Ok out ->
    NoDup (map ti_link out).
Proof.
  intros standings_of page url out H. unfold get_teams_from_league in H.
  destruct (league_ids url) as [ids|e]; [|discriminate]. cbn [Py.bind] in H.
  destruct (get_tournament_standing (standings_of (fst ids) (snd ids)))
    as [[s|]|e] eqn:S; cbn [Py.bind] in H; try discriminate.
  - assert (L : List.length (teams_id s) = List.length (teams_name s)).
    { unfold get_tournament_standing in S.
      destruct (standings_of (fst ids) (snd ids)) as [data|[]];
        try discriminate.
      destruct (Py.index data 0) as [first|]; [|discriminate].
      cbn in S. injection S as <-. cbn. now rewrite !length_map. }
    destruct (page url) as [links|[]]; try discriminate;
      try (injection H as <-; constructor).
    rewrite team_links_loop_pairs in H by exact L. injection H as <-.
    cbn [List.app skipn]. rewrite pair_teams_links.
    apply map_append_nodup, firstn_nodup, team_hrefs_nodup.
  - injection H as <-. constructor.
Qed.

Lemma team_links_distinct_witness :
  NoDup (map ti_link
           (pair_teams
              {| st_league := "Liga"; st_country := "Argentina";
                 st_season := 2024; teams_name := ["Boca"; "River"];
                 teams_id := [1; 2] |}
              ["Boca"; "River"] [1; 2] (team_hrefs demo_links))).
Proof.
  apply (team_links_distinct (fun _ _ => Ok demo_standing)
           (fun _ => Ok demo_links) "https://x/155#id:57478").
  reflexivity.
Defined.

(** X10: the teams are paired with the links by position alone: the k-th
    distinct team link of the page gets the name and identifier of the
    k-th standing row, and there are as many teams as the shorter of the
    two lists has entries. *)
Theorem teams_paired_by_position :
  forall (standings_of : string -> string -> result (list standing_json))
         (page : string -> result (list string)) (league_url : string)
         (ids : string * string) (first : standing_json)
         (others : list standing_json) (links : list string),
    league_ids league_url = Ok ids ->
    standings_of (fst ids) (snd ids) = Ok (first :: others) ->
    page league_url = Ok links ->
    exists out,
      get_teams_from_league standings_of page league_url = Ok out
      /\ List.length out
         = Nat.min (List.length (sg_rows first))
                   (List.length (team_hrefs links))
      /\ map ti_team out = firstn (List.length out) (map fst (sg_rows first))
      /\ map ti_id out = firstn (List.length out) (map snd (sg_rows first))
      /\ map ti_link out
         = map (String.append site)
               (firstn (List.length (sg_rows first)) (team_hrefs links)).
Proof.
  intros standings_of page url ids first others links Hu Hs Hp.
  destruct (teams_from_league_pairs standings_of page url ids first others
              links Hu Hs Hp) as (s & Hn & Hi & ->).
  eexists. split; [reflexivity|].
  assert (L : List.length (teams_id s) = List.length (teams_name s))
    by (rewrite Hn, Hi; now rewrite !length_map).
  destruct (pair_teams_rows s (team_hrefs links) (teams_name s) (teams_id s) L)
    as (Hl & Ht & Hd).
  rewrite pair_teams_links, Ht, Hd, Hl, L, Hn, Hi, !length_map, Nat.min_id.
  repeat split; reflexivity.
Qed.

Lemma teams_paired_by_position_witness :
  exists out,
    get_teams_from_league (fun _ _ => Ok demo_standing)
      (fun _ => Ok demo_links) "https://x/155#id:57478" = Ok out
    /\ List.length out = 2%nat
    /\ map ti_team out = ["Boca"; "River"]
    /\ map ti_id out = [1; 2]
    /\ map ti_link out
       = ["https://www.sofascore.com/es/equipo/futbol/river/22";
          "https://www.sofascore.com/es/equipo/futbol/boca/11"].
Proof.
  destruct (teams_paired_by_position (fun _ _ => Ok demo_standing)
              (fun _ => Ok demo_links) "https://x/155#id:57478"
              ("155", "57478")
              {| sg_tournament := "Liga"; sg_category := "Argentina";
                 sg_updated_year := 2024;
                 sg_rows := [("Boca", 1); ("River", 2)] |} [] demo_links
              eq_refl eq_refl eq_refl) as (out & E & L & T & I & K).
  exists out. rewrite L in T, I.
  split; [exact E|]. split; [exact L|]. split; [exact T|].
  split; [exact I | exact K].
Defined.

(** X11: a [RequestException] of the standings request or of the page
    request gives the empty list of teams, while an answer with an empty
    list of standings raises [IndexError], which nothing catches. *)
Theorem teams_request_failures :
  forall (standings_of : string -> string -> result (list standing_json))
         (page : string -> result (list string)) (league_url : string)
         (ids : string * string),
    league_ids league_url = Ok ids ->
    (standings_of (fst ids) (snd ids) = Raise RequestException ->
     get_teams_from_league standings_of page league_url = Ok [])
    /\ (forall first others,
           standings_of (fst ids) (snd ids) = Ok (first :: others) ->
           page league_url = Raise RequestException ->
           get_teams_from_league standings_of page league_url = Ok [])
    /\ (standings_of (fst ids) (snd ids) = Ok [] ->
        get_teams_from_league standings_of page league_url
        = Raise IndexError).
Proof.
  intros standings_of page url ids Hu. unfold get_teams_from_league.
  rewrite Hu. cbn [Py.bind]. repeat split.
  - now intros ->.
  - intros first others -> Hp. cbn. now rewrite Hp.
  - now intros ->.
Qed.

Lemma teams_request_failures_witness :
  get_teams_from_league (fun _ _ => Raise RequestException)
    (fun _ => Ok demo_links) "https://x/155#id:57478" = Ok []
  /\ get_teams_from_league (fun _ _ => Ok [])
       (fun _ => Ok demo_links) "https://x/155#id:57478" = Raise IndexError.
Proof.
  split.
  - apply (proj1 (teams_request_failures (fun _ _ => Raise RequestException)
                    (fun _ => Ok demo_links) "https://x/155#id:57478"
                    ("155", "57478") eq_refl)).
    reflexivity.
  - apply (proj2 (proj2 (teams_request_failures (fun _ _ => Ok [])
                           (fun _ => Ok demo_links) "https://x/155#id:57478"
                           ("155", "57478") eq_refl))).
    reflexivity.
Defined.

(** ** The identifiers in a league URL *)

Lemma prefix_nil_l (s : string) : String.prefix "" s = true.
Proof. now destruct s. Qed.

Lemma prefix_app (n a b : string) :
  String.prefix n a = true -> String.prefix n (a ++ b) = true.
Proof.
  revert a. induction n as [|c n IH]; intros a H; [apply prefix_nil_l|].
  destruct a as [|c' a]; [discriminate|]. cbn in *.
  destruct (ascii_dec c c'); [now apply IH | discriminate].
Qed.

Lemma contains_nil_l (s : string) : Py.contains "" s = true.
Proof. destruct s; reflexivity. Qed.

Lemma contains_app_l (n a b : string) :
  Py.contains n a = true -> Py.contains n (a ++ b) = true.
Proof.
  induction a as [|c a IH]; intros H.
  - cbn in H. rewrite orb_false_r in H.
    destruct n; [apply contains_nil_l | discriminate].
  - cbn [Py.contains] in H. apply orb_true_iff in H as [H|H].
    + change (Py.contains n (String c (a ++ b)) = true). cbn [Py.contains].
      apply orb_true_iff. left.
      now apply (prefix_app n (String c a) b).
    + change (Py.contains n (String c (a ++ b)) = true). cbn [Py.contains].
      apply orb_true_iff. right. now apply IH.
Qed.

Lemma rstrip_char_prefix (c : ascii) (s : string) :
  exists post, s = (Py.rstrip_char c s ++ post)%string.
Proof.
  induction s as [|a r [post IH]]; [now exists ""|].
  cbn [Py.rstrip_char]. destruct (Py.rstrip_char c r) as [|a' r'] eqn:E.
  - destruct (Ascii.eqb a c); [now exists (String a r)|].
    exists r. reflexivity.
  - exists post. cbn in *. now f_equal.
Qed.

Lemma split_head_prefix (sep : ascii) (s g : string) (gs : list string) :
  Py.split sep s = g :: gs -> exists rest, s = (g ++ rest)%string.
Proof.
  revert g gs. induction s as [|c r IH]; intros g gs; cbn [Py.split].
  - intros [= <- _]. now exists "".
  - destruct (Ascii.eqb c sep).
    + intros [= <- _]. now exists (String c r).
    + destruct (Py.split sep r) as [|g' gs'] eqn:E.
      * intros [= <- _]. exists r. reflexivity.
      * intros [= <- _]. destruct (IH g' gs' eq_refl) as [rest ->].
        now exists rest.
Qed.

Lemma split_nonempty (sep : ascii) (s : string) : Py.split sep s <> [].
Proof.
  destruct s as [|c r]; cbn; [discriminate|].
  destruct (Ascii.eqb c sep); [discriminate|].
  destruct (Py.split sep r); discriminate.
Qed.

(** A string that does not contain [n] has no group containing it. *)
Lemma split_groups_free (n : string) (sep : ascii) (s : string) :
  Py.contains n s = false ->
  Forall (fun g => Py.contains n g = false) (Py.split sep s).
Proof.
  induction s as [|c r IH]; intros H; cbn [Py.split].
  - constructor; [exact H | constructor].
  - cbn [Py.contains] in H. apply orb_false_iff in H as [Hp Hc].
    specialize (IH Hc). destruct (Ascii.eqb c sep).
    + constructor; [|exact IH].
      destruct n; [now rewrite contains_nil_l in Hc | reflexivity].
    + destruct (Py.split sep r) as [|g gs] eqn:E.
      * now apply split_nonempty in E.
      * inversion IH as [|? ? Hg Hgs]; subst. constructor; [|exact Hgs].
        cbn [Py.contains]. rewrite Hg, orb_false_r.
        destruct (String.prefix n (String c g)) eqn:P; [|reflexivity].
        destruct (split_head_prefix sep r g gs E) as [rest ->].
        pose proof (prefix_app n (String c g) rest P) as X.
        change (String.prefix n (String c (g ++ rest)) = true) in X.
        congruence.
Qed.

Lemma split_str_no_sep (sep s : string) :
  Py.contains sep s = false -> Py.split_str sep s = [s].
Proof.
  unfold Py.split_str. induction s as [|c r IH]; intros H; [reflexivity|].
  cbn [Py.contains] in H. apply orb_false_iff in H as [Hp Hc].
  cbn [Py.split_str_from]. now rewrite Hp, IH.
Qed.

Lemma index_last_ok {A} (l : list A) :
  l <> [] -> exists a, Py.index_last l = Ok a /\ In a l.
Proof.
  intros N. unfold Py.index_last, Py.index.
  destruct (List.rev l) as [|a l'] eqn:E.
  - exfalso. apply N. apply (f_equal (@List.rev A)) in E.
    now rewrite rev_involutive in E.
  - exists a. split; [reflexivity|]. apply in_rev. rewrite E. now left.
Qed.

(** X12: a league URL that does not contain ['#id:'] makes
    [get_teams_from_league] raise [IndexError] before any request is
    sent. *)
Theorem teams_url_without_id_raises :
  forall (standings_of : string -> string -> result (list standing_json))
         (page : string -> result (list string)) (league_url : string),
    Py.contains "#id:" league_url = false ->
    get_teams_from_league standings_of page league_url = Raise IndexError.
Proof.
  intros standings_of page url H. unfold get_teams_from_league, league_ids.
  cbv zeta.
  assert (Hs : Py.contains "#id:" (Py.rstrip_char "/" url) = false).
  { destruct (Py.contains "#id:" (Py.rstrip_char "/" url)) eqn:C;
      [|reflexivity].
    destruct (rstrip_char_prefix "/" url) as [post E].
    rewrite E in H. now rewrite contains_app_l in H. }
  destruct (index_last_ok (Py.split "/" (Py.rstrip_char "/" url))
              (split_nonempty _ _)) as (last & -> & Hin).
  pose proof (split_groups_free "#id:" "/" _ Hs) as F.
  rewrite Forall_forall in F. specialize (F last Hin).
  cbn [Py.bind]. now rewrite (split_str_no_sep "#id:" last F).
Qed.

Lemma teams_url_without_id_raises_witness :
  get_teams_from_league (fun _ _ => Ok demo_standing)
    (fun _ => Ok demo_links) "https://www.sofascore.com/torneo/155"
  = Raise IndexError.
Proof.
  apply (teams_url_without_id_raises (fun _ _ => Ok demo_standing)
           (fun _ => Ok demo_links) "https://www.sofascore.com/torneo/155").
  reflexivity.
Defined.

Lemma string_app_assoc (x y z : string) :
  ((x ++ y) ++ z)%string = (x ++ y ++ z)%string.
Proof. induction x as [|c x IH]; cbn; [easy | now rewrite IH]. Qed.

Lemma string_app_nil (x y : string) : (x ++ y)%string = "" -> y = "".
Proof. destruct x; [easy | discriminate]. Qed.

Lemma all_chars_app (P : ascii -> bool) (x y : string) :
  all_chars P (x ++ y) = all_chars P x && all_chars P y.
Proof.
  induction x as [|c x IH]; cbn; [reflexivity|].
  now rewrite IH, andb_assoc.
Qed.

Lemma rstrip_char_none (c : ascii) (s : string) :
  all_chars (not_char c) s = true -> Py.rstrip_char c s = s.
Proof.
  induction s as [|a r IH]; [reflexivity|]. cbn [all_chars Py.rstrip_char].
  intros H. apply andb_true_iff in H as [Ha Hr]. rewrite (IH Hr).
  unfold not_char in Ha. apply negb_true_iff in Ha. rewrite Ha.
  now destruct r.
Qed.

(** Nothing is stripped in front of a tail that [rstrip] leaves alone. *)
Lemma rstrip_char_keeps (c : ascii) (x y : string) :
  y <> "" -> Py.rstrip_char c y = y ->
  Py.rstrip_char c (x ++ y) = (x ++ y)%string.
Proof.
  intros N E. induction x as [|a x IH]; [exact E|].
  cbn [append Py.rstrip_char]. rewrite IH.
  destruct (x ++ y)%string eqn:A; [|reflexivity].
  now apply string_app_nil in A.
Qed.

Lemma rstrip_char_trailing (c : ascii) (s : string) :
  Py.rstrip_char c (s ++ String c "") = Py.rstrip_char c s.
Proof.
  induction s as [|a r IH]; cbn [append Py.rstrip_char].
  - now rewrite Ascii.eqb_refl.
  - now rewrite IH.
Qed.

Lemma split_no_sep_char (sep : ascii) (s : string) :
  all_chars (not_char sep) s = true -> Py.split sep s = [s].
Proof.
  induction s as [|c r IH]; [reflexivity|]. cbn [all_chars Py.split].
  intros H. apply andb_true_iff in H as [Hc Hr]. rewrite (IH Hr).
  unfold not_char in Hc. apply negb_true_iff in Hc. now rewrite Hc.
Qed.

(** Splitting distributes over a separator. *)
Lemma split_app_sep (sep : ascii) (x y : string) :
  Py.split sep (x ++ String sep y) = Py.split sep x ++ Py.split sep y.
Proof.
  induction x as [|c x IH]; cbn [append Py.split].
  - now rewrite Ascii.eqb_refl.
  - rewrite IH. destruct (Ascii.eqb c sep); [reflexivity|].
    destruct (Py.split sep x) as [|g gs] eqn:E; [|reflexivity].
    now apply split_nonempty in E.
Qed.

Lemma index_last_snoc {A} (l : list A) (a : A) :
  Py.index_last (l ++ [a]) = Ok a.
Proof. unfold Py.index_last. now rewrite rev_unit. Qed.

Lemma prefix_head_neq (a c : ascii) (n r : string) :
  (c =? a)%char = false -> String.prefix (String a n) (String c r) = false.
Proof.
  intros H. cbn [String.prefix].
  destruct (ascii_dec a c) as [->|]; [|reflexivity].
  now rewrite Ascii.eqb_refl in H.
Qed.

Lemma no_hash_no_id (s : string) :
  all_chars (not_char "#") s = true -> Py.contains "#id:" s = false.
Proof.
  induction s as [|c r IH]; [reflexivity|]. cbn [all_chars Py.contains].
  intros H. apply andb_true_iff in H as [Hc Hr]. rewrite (IH Hr).
  unfold not_char in Hc. apply negb_true_iff in Hc.
  change "#id:" with (String "#" "id:").
  now rewrite (prefix_head_neq "#" c "id:" r Hc).
Qed.

Lemma prefix_self_app (n s : string) : String.prefix n (n ++ s) = true.
Proof.
  induction n as [|c n IH]; [apply prefix_nil_l|]. cbn [append String.prefix].
  destruct (ascii_dec c c) as [_|N]; [exact IH | now elim N].
Qed.

Lemma split_str_id (t sid : string) :
  all_chars (not_char "#") t = true ->
  all_chars (not_char "#") sid = true ->
  Py.split_str "#id:" (t ++ "#id:" ++ sid) = [t; sid].
Proof.
  intros Ht Hs. unfold Py.split_str. induction t as [|c t IH].
  - assert (P : String.prefix "#id:"
                  (String "#" (String "i" (String "d" (String ":" sid))))
                = true) by apply (prefix_self_app "#id:" sid).
    change ("" ++ "#id:" ++ sid)%string
      with (String "#" (String "i" (String "d" (String ":" sid)))).
    cbn [Py.split_str_from]. rewrite P.
    cbn [Py.split_str_from String.length Nat.sub].
    fold (Py.split_str "#id:" sid).
    now rewrite (split_str_no_sep "#id:" sid (no_hash_no_id sid Hs)).
  - cbn [all_chars] in Ht. apply andb_true_iff in Ht as [Hc Ht].
    unfold not_char in Hc. apply negb_true_iff in Hc.
    change (String c t ++ "#id:" ++ sid)%string
      with (String c (t ++ "#id:" ++ sid)).
    cbn [Py.split_str_from]. rewrite (IH Ht).
    change "#id:" with (String "#" "id:").
    now rewrite (prefix_head_neq "#" c "id:" _ Hc).
Qed.

(** X13: a league URL whose last path segment is
    [<tournament>#id:<season>], both free of ['/'] and ['#'], yields this
    tournament and season, with or without one trailing slash. *)
Theorem league_ids_round_trip :
  forall base t sid : string,
    all_chars (not_char "/") t = true ->
    all_chars (not_char "#") t = true ->
    all_chars (not_char "/") sid = true ->
    all_chars (not_char "#") sid = true ->
    league_ids (base ++ "/" ++ t ++ "#id:" ++ sid) = Ok (t, sid)
    /\ league_ids ((base ++ "/" ++ t ++ "#id:" ++ sid) ++ "/") = Ok (t, sid).
Proof.
  intros base t sid Ht1 Ht2 Hs1 Hs2.
  assert (F : all_chars (not_char "/") (t ++ "#id:" ++ sid) = true).
  { rewrite !all_chars_app, Ht1, Hs1. reflexivity. }
  assert (N : (t ++ "#id:" ++ sid)%string <> "").
  { intros E. apply string_app_nil in E. discriminate. }
  assert (R : Py.rstrip_char "/" (base ++ "/" ++ t ++ "#id:" ++ sid)
              = (base ++ "/" ++ t ++ "#id:" ++ sid)%string).
  { apply rstrip_char_keeps; [discriminate|].
    change ("/" ++ t ++ "#id:" ++ sid)%string
      with (String "/" (t ++ "#id:" ++ sid)).
    cbn [Py.rstrip_char]. rewrite (rstrip_char_none "/" _ F).
    destruct (t ++ "#id:" ++ sid)%string; [now elim N | reflexivity]. }
  assert (G : league_ids (base ++ "/" ++ t ++ "#id:" ++ sid) = Ok (t, sid)).
  { unfold league_ids. cbv zeta. rewrite R.
    change ("/" ++ t ++ "#id:" ++ sid)%string
      with (String "/" (t ++ "#id:" ++ sid)).
    rewrite split_app_sep, (split_no_sep_char "/" _ F), index_last_snoc.
    cbn [Py.bind]. now rewrite (split_str_id t sid Ht2 Hs2). }
  split; [exact G|].
  unfold league_ids in *. cbv zeta in *.
  now rewrite rstrip_char_trailing.
Qed.

Lemma league_ids_round_trip_witness :
  league_ids ("https://www.sofascore.com/es/torneo" ++ "/" ++ "155" ++ "#id:"
              ++ "57478") = Ok ("155", "57478")
  /\ league_ids (("https://www.sofascore.com/es/torneo" ++ "/" ++ "155"
                  ++ "#id:" ++ "57478") ++ "/") = Ok ("155", "57478").
Proof.
  apply (league_ids_round_trip "https://www.sofascore.com/es/torneo"
           "155" "57478"); reflexivity.
Defined.

(** ** Players of the teams *)

Example players_of_two_teams :
  match get_players_from_teams demo_pages
          [demo_team "Boca" "boca"; demo_team "River" "river"] with
  | Ok out => map (fun p => (pl_name p, pl_id p, pl_team p)) out
  | Raise _ => []
  end
  = [("Edinson Cavani", "12345", "Boca"); ("Franco Armani", "777", "River")].
Proof. reflexivity. Qed.

Lemma contains_cut (n s : string) :
  Py.contains n s = true -> exists a b, s = (a ++ n ++ b)%string.
Proof.
  induction s as [|c r IH]; cbn [Py.contains]; intros H;
    apply orb_true_iff in H as [H|H]; try discriminate.
  - destruct n; [|discriminate]. now exists "", "".
  - apply String.prefix_correct in H. exists "".
    exists (String.substring (String.length n)
              (String.length (String c r) - String.length n) (String c r)).
    cbn [append]. rewrite <- H at 1.
    clear H IH. revert n. generalize (String c r). clear c r.
    induction s as [|c r IH]; intros n.
    + destruct n; reflexivity.
    + destruct n as [|a n]; cbn.
      * f_equal. clear IH. induction r as [|c' r IH]; cbn; [easy|].
        now rewrite <- IH.
      * now rewrite <- IH.
  - destruct (IH H) as (a & b & ->). now exists (String c a), b.
Qed.

Lemma rstrip_char_app_keep (c a : ascii) (x y : string) :
  (a =? c)%char = false ->
  Py.rstrip_char c (x ++ String a y)
  = (x ++ String a (Py.rstrip_char c y))%string.
Proof.
  intros H. induction x as [|b x IH].
  - cbn [append Py.rstrip_char]. rewrite H.
    now destruct (Py.rstrip_char c y).
  - change (String b x ++ String a y)%string
      with (String b (x ++ String a y)).
    cbn [Py.rstrip_char]. rewrite IH. now destruct x.
Qed.

Lemma count_char_app (c : ascii) (x y : string) :
  count_char c (x ++ y) = (count_char c x + count_char c y)%nat.
Proof. induction x as [|a x IH]; cbn; [reflexivity | rewrite IH; lia]. Qed.

Lemma split_length (sep : ascii) (s : string) :
  List.length (Py.split sep s) = S (count_char sep s).
Proof.
  induction s as [|c r IH]; [reflexivity|]. cbn [Py.split count_char].
  destruct (Ascii.eqb c sep); cbn [List.length]; [now rewrite IH|].
  destruct (Py.split sep r) as [|g gs]; cbn in *; lia.
Qed.

Lemma index_before_last_ok {A} (l : list A) :
  (2 <= List.length l)%nat -> exists a, Py.index_before_last l = Ok a.
Proof.
  intros H. unfold Py.index_before_last.
  destruct (index_lt (List.rev l) 1) as (a & E & _).
  - rewrite length_rev. lia.
  - now exists a.
Qed.

(** A player link has at least three segments once its trailing slashes
    are gone, so its last two segments can be read. *)
Lemma player_segments (href : string) :
  Py.contains player_marker href = true ->
  exists id part,
    Py.index_last (Py.split "/" (Py.rstrip_char "/" href)) = Ok id
    /\ Py.index_before_last (Py.split "/" (Py.rstrip_char "/" href))
       = Ok part.
Proof.
  intros H. apply contains_cut in H as (a & b & ->).
  assert (E : (a ++ player_marker ++ b)%string
              = ((a ++ "/es/jugado") ++ String "r" (String "/" b))%string)
    by now rewrite string_app_assoc.
  rewrite E, rstrip_char_app_keep by reflexivity.
  assert (L : (3 <= List.length
                      (Py.split "/"
                         ((a ++ "/es/jugado")
                          ++ String "r" (Py.rstrip_char "/" (String "/" b)))))
              %nat).
  { rewrite split_length, !count_char_app. cbn [count_char Ascii.eqb].
    cbn. lia. }
  destruct (index_last_ok (Py.split "/"
              ((a ++ "/es/jugado")
               ++ String "r" (Py.rstrip_char "/" (String "/" b)))))
    as (id & Hid & _); [apply split_nonempty|].
  destruct (index_before_last_ok (Py.split "/"
              ((a ++ "/es/jugado")
               ++ String "r" (Py.rstrip_char "/" (String "/" b)))))
    as (part & Hpart); [lia|].
  now exists id, part.
Qed.

Lemma player_links_loop_returns (team : team_info) (links : list string) :
  forall repeated players_dic,
    exists state,
      player_links_loop team links repeated players_dic = Ok state.
Proof.
  induction links as [|href rest IH]; intros repeated dic;
    cbn [player_links_loop]; [now eexists|].
  destruct (Py.mem href repeated); cbn [negb]; [apply IH|].
  destruct (Py.contains player_marker href) eqn:C; [|apply IH].
  destruct (player_segments href C) as (id & part & -> & ->).
  cbn [Py.bind]. apply IH.
Qed.

(** X14: reading the identifier and the name out of a player link never
    raises: [get_players_from_teams] returns whenever every team page
    answers, and otherwise raises the exception of the first failing
    page. *)
Theorem players_fail_only_on_requests :
  forall (page : string -> result (list string)) (teams : list team_info),
    (Forall (fun team => exists links, page (ti_link team) = Ok links) teams ->
     exists out, get_players_from_teams page teams = Ok out)
    /\ (forall pre team post e,
           teams = pre ++ team :: post ->
           Forall (fun t => exists links, page (ti_link t) = Ok links) pre ->
           page (ti_link team) = Raise e ->
           get_players_from_teams page teams = Raise e).
Proof.
  intros page teams. unfold get_players_from_teams.
  generalize (@nil string) as repeated.
  generalize (@nil player_info) as dic. split.
  - intros F. revert dic repeated.
    induction F as [|team rest [links Hl] _ IH]; intros dic repeated;
      cbn [players_teams_loop]; [now eexists|].
    rewrite Hl. cbn [Py.bind].
    destruct (player_links_loop_returns team links repeated dic) as [st ->].
    cbn [Py.bind]. apply IH.
  - intros pre team post e -> F He. revert dic repeated.
    induction F as [|t rest [links Hl] _ IH]; intros dic repeated;
      cbn [players_teams_loop List.app].
    + now rewrite He.
    + rewrite Hl. cbn [Py.bind].
      destruct (player_links_loop_returns t links repeated dic) as [st ->].
      cbn [Py.bind]. apply IH.
Qed.

Lemma players_fail_only_on_requests_witness :
  (exists out,
      get_players_from_teams demo_pages
        [demo_team "Boca" "boca"; demo_team "River" "river"] = Ok out)
  /\ get_players_from_teams demo_pages
       ([demo_team "Boca" "boca"] ++ demo_team "Racing" "racing"
          :: [demo_team "River" "river"])
     = Raise RequestException.
Proof.
  split.
  - apply (proj1 (players_fail_only_on_requests demo_pages
                    [demo_team "Boca" "boca"; demo_team "River" "river"])).
    repeat constructor; eexists; reflexivity.
  - apply (proj2 (players_fail_only_on_requests demo_pages
                    ([demo_team "Boca" "boca"] ++ demo_team "Racing" "racing"
                       :: [demo_team "River" "river"]))
             [demo_team "Boca" "boca"] (demo_team "Racing" "racing")
             [demo_team "River" "river"] RequestException eq_refl).
    + repeat constructor. eexists. reflexivity.
    + reflexivity.
Defined.

Lemma nodup_snoc {A} (l : list A) (x : A) :
  NoDup l -> ~ In x l -> NoDup (l ++ [x]).
Proof.
  induction 1 as [|y l Hy N IH]; intros Hx; cbn.
  - constructor; [intros [] | constructor].
  - constructor.
    + intros Hin. apply in_app_or in Hin as [Hin|[<-|[]]]; [now apply Hy|].
      apply Hx. now left.
    + apply IH. intros Hin. apply Hx. now right.
Qed.

Lemma links_tracked_seen (repeated : list string) (dic : list player_info)
    (href : string) :
  links_tracked repeated dic -> links_tracked (repeated ++ [href]) dic.
Proof.
  intros [N T]. split; [exact N|].
  intros p Hp. destruct (T p Hp) as (h & Hh & E).
  exists h. split; [apply in_or_app; now left | exact E].
Qed.

Lemma links_tracked_new (team : team_info) (repeated : list string)
    (dic : list player_info) (href id part : string) :
  Py.mem href repeated = false ->
  links_tracked repeated dic ->
  links_tracked (repeated ++ [href])
    (dic ++ [player_entry team href id part]).
Proof.
  intros M [N T]. split.
  - rewrite map_app. cbn [map]. apply nodup_snoc; [exact N|].
    intros Hin. apply in_map_iff in Hin as (p & E & Hp).
    destruct (T p Hp) as (h & Hh & E'). rewrite E' in E.
    apply append_inj_l in E. subst h. apply mem_In in Hh. congruence.
  - intros p Hp. apply in_app_or in Hp as [Hp|[<-|[]]].
    + destruct (T p Hp) as (h & Hh & E). exists h.
      split; [apply in_or_app; now left | exact E].
    + exists href. split; [apply in_or_app; right; now left | reflexivity].
Qed.

Lemma player_links_loop_tracked (team : team_info) (links : list string) :
  forall repeated dic state,
    links_tracked repeated dic ->
    player_links_loop team links repeated dic = Ok state ->
    links_tracked (snd state) (fst state).
Proof.
  induction links as [|href rest IH]; intros repeated dic state T;
    cbn [player_links_loop].
  - now intros [= <-].
  - destruct (Py.mem href repeated) eqn:M; cbn [negb]; [now apply IH|].
    destruct (Py.contains player_marker href).
    + destruct (Py.index_last _) as [id|]; [|discriminate].
      destruct (Py.index_before_last _) as [part|]; [|discriminate].
      cbn [Py.bind]. apply IH. now apply links_tracked_new.
    + apply IH. now apply links_tracked_seen.
Qed.

(** X15: the links of the players returned by [get_players_from_teams]
    are pairwise distinct, also across teams: a player link found on the
    pages of several teams is entered once. *)
Theorem player_links_distinct :
  forall (page : string -> result (list string)) (teams : list team_info)
         (out : list player_info),
    get_players_from_teams page teams = Ok out ->
    NoDup (map pl_link out).
Proof.
  intros page teams out. unfold get_players_from_teams.
  assert (T : links_tracked [] []) by (split; [constructor | intros p []]).
  revert T. generalize (@nil string) as repeated.
  generalize (@nil player_info) as dic.
  induction teams as [|team rest IH]; intros dic repeated T;
    cbn [players_teams_loop].
  - intros [= <-]. apply T.
  - destruct (page (ti_link team)) as [links|]; [|discriminate].
    cbn [Py.bind].
    destruct (player_links_loop team links repeated dic) as [st|] eqn:E;
      [|discriminate].
    cbn [Py.bind]. apply IH.
    eapply player_links_loop_tracked; [exact T | exact E].
Qed.

Lemma player_links_distinct_witness :
  NoDup (map pl_link
           [player_entry (demo_team "Boca" "boca")
              "/es/jugador/edinson-cavani/12345" "12345" "edinson-cavani";
            player_entry (demo_team "River" "river")
              "/es/jugador/franco-armani/777/" "777" "franco-armani"]).
Proof.
  apply (player_links_distinct demo_pages
           [demo_team "Boca" "boca"; demo_team "River" "river"]).
  reflexivity.
Defined.

(** Every entry of the result satisfies what every new entry satisfies. *)
Lemma player_links_loop_all (Q : player_info -> Prop) (team : team_info)
    (links : list string) :
  (forall href id part,
      In href links -> Py.contains player_marker href = true ->
      Py.index_last (Py.split "/" (Py.rstrip_char "/" href)) = Ok id ->
      Py.index_before_last (Py.split "/" (Py.rstrip_char "/" href)) = Ok part ->
      Q (player_entry team href id part)) ->
  forall repeated dic state,
    Forall Q dic ->
    player_links_loop team links repeated dic = Ok state ->
    Forall Q (fst state).
Proof.
  induction links as [|href rest IH]; intros New repeated dic state F;
    cbn [player_links_loop].
  - now intros [= <-].
  - assert (New' : forall h id part,
               In h rest -> Py.contains player_marker h = true ->
               Py.index_last (Py.split "/" (Py.rstrip_char "/" h)) = Ok id ->
               Py.index_before_last (Py.split "/" (Py.rstrip_char "/" h))
               = Ok part ->
               Q (player_entry team h id part))
      by (intros h id part Hh; apply New; now right).
    destruct (Py.mem href repeated); cbn [negb]; [now apply IH|].
    destruct (Py.contains player_marker href) eqn:C; [|now apply IH].
    destruct (Py.index_last _) as [id|] eqn:Ei; [|discriminate].
    destruct (Py.index_before_last _) as [part|] eqn:Ep; [|discriminate].
    cbn [Py.bind]. apply IH; [exact New'|].
    apply Forall_app. split; [exact F|]. constructor; [|constructor].
    apply New; [now left | exact C | exact Ei | exact Ep].
Qed.

Lemma players_teams_loop_all (Q : player_info -> Prop)
    (page : string -> result (list string)) (teams : list team_info) :
  (forall team links href id part,
      In team teams -> page (ti_link team) = Ok links ->
      In href links -> Py.contains player_marker href = true ->
      Py.index_last (Py.split "/" (Py.rstrip_char "/" href)) = Ok id ->
      Py.index_before_last (Py.split "/" (Py.rstrip_char "/" href)) = Ok part ->
      Q (player_entry team href id part)) ->
  forall repeated dic out,
    Forall Q dic ->
    players_teams_loop page teams repeated dic = Ok out ->
    Forall Q out.
Proof.
  induction teams as [|team rest IH]; intros New repeated dic out F;
    cbn [players_teams_loop].
  - now intros [= <-].
  - destruct (page (ti_link team)) as [links|] eqn:P; [|discriminate].
    cbn [Py.bind].
    destruct (player_links_loop team links repeated dic) as [st|] eqn:E;
      [|discriminate].
    cbn [Py.bind]. apply IH.
    + intros t l h id part Ht. apply New. now right.
    + eapply player_links_loop_all; [|exact F | exact E].
      intros h id part Hh. apply (New team links); [now left | exact P | exact Hh].
Qed.

(** X16: every returned player comes from a link of the page of one of
    the teams: the link contains ['/es/jugador/'], and the entry carries
    that team's name, league, country and season. *)
Theorem player_provenance :
  forall (page : string -> result (list string)) (teams : list team_info)
         (out : list player_info) (p : player_info),
    get_players_from_teams page teams = Ok out ->
    In p out ->
    exists team links href,
      In team teams
      /\ page (ti_link team) = Ok links
      /\ In href links
      /\ Py.contains player_marker href = true
      /\ pl_link p = (site ++ href)%string
      /\ pl_team p = ti_team team
      /\ pl_league p = ti_league team
      /\ pl_country p = ti_country team
      /\ pl_season p = ti_season team.
Proof.
  intros page teams out p H Hp. unfold get_players_from_teams in H.
  apply (players_teams_loop_all
           (fun p => exists team links href,
                In team teams
                /\ page (ti_link team) = Ok links
                /\ In href links
                /\ Py.contains player_marker href = true
                /\ pl_link p = (site ++ href)%string
                /\ pl_team p = ti_team team
                /\ pl_league p = ti_league team
                /\ pl_country p = ti_country team
                /\ pl_season p = ti_season team)) in H.
  - rewrite Forall_forall in H. exact (H p Hp).
  - intros team links href id part Ht Hl Hh C _ _.
    exists team, links, href. now repeat split.
  - constructor.
Qed.

Lemma player_provenance_witness :
  exists team links href,
    In team [demo_team "Boca" "boca"; demo_team "River" "river"]
    /\ demo_pages (ti_link team) = Ok links
    /\ In href links
    /\ Py.contains player_marker href = true
    /\ "https://www.sofascore.com/es/jugador/franco-armani/777/"
       = (site ++ href)%string
    /\ "River" = ti_team team
    /\ "Liga" = ti_league team
    /\ "Argentina" = ti_country team
    /\ 2024 = ti_season team.
Proof.
  apply (player_provenance demo_pages
           [demo_team "Boca" "boca"; demo_team "River" "river"]
           [player_entry (demo_team "Boca" "boca")
              "/es/jugador/edinson-cavani/12345" "12345" "edinson-cavani";
            player_entry (demo_team "River" "river")
              "/es/jugador/franco-armani/777/" "777" "franco-armani"]
           (player_entry (demo_team "River" "river")
              "/es/jugador/franco-armani/777/" "777" "franco-armani")).
  - reflexivity.
  - right. left. reflexivity.
Defined.

Lemma upper_no_hyphen (c : ascii) :
  not_char "-" c = true -> not_char "-" (Py.upper c) = true.
Proof. destruct c as [[] [] [] [] [] [] [] []]; vm_compute; auto. Qed.

Lemma lower_no_hyphen (c : ascii) :
  not_char "-" c = true -> not_char "-" (Py.lower c) = true.
Proof. destruct c as [[] [] [] [] [] [] [] []]; vm_compute; auto. Qed.

Lemma title_no_hyphen (s : string) :
  forall previous_is_cased,
    all_chars (not_char "-") s = true ->
    all_chars (not_char "-") (Py.title_from previous_is_cased s) = true.
Proof.
  induction s as [|c r IH]; intros b H; [reflexivity|].
  cbn [all_chars Py.title_from] in *. apply andb_true_iff in H as [Hc Hr].
  rewrite (IH _ Hr), andb_true_r.
  destruct b; [now apply lower_no_hyphen | now apply upper_no_hyphen].
Qed.

Lemma replace_char_gone (a b : ascii) (s : string) :
  (b =? a)%char = false ->
  all_chars (not_char a) (Py.replace_char a b s) = true.
Proof.
  intros H. induction s as [|c r IH]; [reflexivity|].
  cbn [Py.replace_char all_chars]. rewrite IH, andb_true_r. unfold not_char.
  destruct (Ascii.eqb c a) eqn:E; [now rewrite H | now rewrite E].
Qed.

(** X17: in every returned player the identifier, the last segment of the
    link, holds no slash, and the name, made from the segment before it,
    holds no hyphen. *)
Theorem player_id_and_name_shape :
  forall (page : string -> result (list string)) (teams : list team_info)
         (out : list player_info) (p : player_info),
    get_players_from_teams page teams = Ok out ->
    In p out ->
    all_chars (not_char "/") (pl_id p) = true
    /\ all_chars (not_char "-") (pl_name p) = true.
Proof.
  intros page teams out p H Hp. unfold get_players_from_teams in H.
  apply (players_teams_loop_all
           (fun p => all_chars (not_char "/") (pl_id p) = true
                     /\ all_chars (not_char "-") (pl_name p) = true)) in H;
    [| |constructor].
  - rewrite Forall_forall in H. exact (H p Hp).
  - intros team links href id part _ _ _ _ Ei _. split.
    + cbn [pl_id player_entry]. apply index_last_In in Ei.
      pose proof (split_all_chars "/" (Py.rstrip_char "/" href)) as F.
      rewrite Forall_forall in F. now apply F.
    + cbn [pl_name player_entry]. unfold Py.title.
      apply title_no_hyphen, replace_char_gone. reflexivity.
Qed.

Lemma player_id_and_name_shape_witness :
  all_chars (not_char "/") "777" = true
  /\ all_chars (not_char "-") "Franco Armani" = true.
Proof.
  apply (player_id_and_name_shape demo_pages
           [demo_team "Boca" "boca"; demo_team "River" "river"]
           [player_entry (demo_team "Boca" "boca")
              "/es/jugador/edinson-cavani/12345" "12345" "edinson-cavani";
            player_entry (demo_team "River" "river")
              "/es/jugador/franco-armani/777/" "777" "franco-armani"]
           (player_entry (demo_team "River" "river")
              "/es/jugador/franco-armani/777/" "777" "franco-armani")).
  - reflexivity.
  - right. left. reflexivity.
Defined.

(** ** Team frames *)

Lemma team_data_orders (c : counts) (ps : list player) :
  forall j,
    map r_order (team_data c j ps)
    = map (fun i => Z.of_nat i + 1) (seq j (List.length ps)).
Proof.
  induction ps as [|p ps IH]; intros j; cbn [team_data map List.length seq];
    [reflexivity|].
  rewrite IH. f_equal. unfold player_row.
  now destruct (resolve c (Z.of_nat j + 1) (substitute p)) as [[line lat] pos].
Qed.

Lemma team_data_length (c : counts) (ps : list player) :
  forall j, List.length (team_data c j ps) = List.length ps.
Proof. induction ps as [|p ps IH]; intros j; cbn; [easy | now rewrite IH]. Qed.

(** X18: [create_team_df] gives one row per player, in order, numbered
    from 1, with the player's identifier, and the same team columns on
    every row. *)
Theorem create_team_df_rows :
  forall (ps : list player) (f : string) (c : counts) (team_name : string)
         (is_home : bool),
    let df := create_team_df ps f c team_name is_home in
    List.length df = List.length ps
    /\ map (fun t => r_order (t_row t)) df
       = map (fun i => Z.of_nat i + 1) (seq 0 (List.length ps))
    /\ map (fun t => r_id (t_row t)) df = map id ps
    /\ Forall (fun t => t_local t = (if is_home then "Home" else "Away")
                        /\ t_team t = team_name
                        /\ t_formation t = f
                        /\ t_defense t = n_def c
                        /\ t_midfield t = n_mid_0 c + n_mid_1 c + n_mid_2 c
                        /\ t_attack t = n_ata c) df.
Proof.
  intros ps f c team_name is_home. cbv zeta. unfold create_team_df.
  rewrite length_map, team_data_length, !map_map. cbn [with_team_columns t_row].
  split; [reflexivity|]. split; [apply team_data_orders|].
  split; [apply team_data_ids|].
  apply Forall_forall. intros t Ht. apply in_map_iff in Ht as (r & <- & _).
  now repeat split.
Qed.

(** X19: when the body of a finished event returns, the lineup part of
    its rows is what [create_team_df] builds for the home side followed by
    the away side: every merged row stems from one of those rows, and each
    of those rows occurs in the result. *)
Theorem event_rows_are_team_frames :
  forall (home away : side) (st st' : locals) (rows : list merged_row),
    finished_event home away st = (Ok rows, st') ->
    exists hc ac,
      formation_counts (formation home) = Ok hc
      /\ formation_counts (formation away) = Ok ac
      /\ let df := create_team_df (players home) (formation home) hc
                     (shortName home) true
                   ++ create_team_df (players away) (formation away) ac
                        (shortName away) false in
         (forall m, In m rows -> In (fst m) df)
         /\ (forall t, In t df -> In t (map fst rows)).
Proof.
  intros home away st st' rows. unfold finished_event.
  destruct (formation_counts (formation home)) as [hc|]; [|discriminate].
  destruct (formation_counts (formation away)) as [ac|]; [|discriminate].
  destruct (players_loop hc (average_positions home) 0 (players home) st)
    as [[[hrows havg]|] st1] eqn:Eh; [|discriminate].
  destruct (players_loop ac (average_positions away) 0 (players away) st1)
    as [[[arows aavg]|] st2] eqn:Ea; [|discriminate].
  intros [= <- _]. exists hc, ac. split; [reflexivity|]. split; [reflexivity|].
  apply players_loop_rows in Eh as [-> _].
  apply players_loop_rows in Ea as [-> _].
  cbv zeta. unfold create_team_df. cbn [andb]. split.
  - intros m Hm. unfold Pd.merge_left in Hm.
    apply in_flat_map in Hm as (l & Hl & Hm).
    destruct (filter _ _) in Hm.
    + destruct Hm as [<-|[]]. exact Hl.
    + apply in_map_iff in Hm as (r' & <- & _). exact Hl.
  - intros t Ht. now apply merge_left_keeps.
Qed.

Lemma event_rows_are_team_frames_witness :
  exists hc ac,
    formation_counts (formation home_short) = Ok hc
    /\ formation_counts (formation away_full) = Ok ac
    /\ let df := create_team_df (players home_short) (formation home_short)
                   hc (shortName home_short) true
                 ++ create_team_df (players away_full) (formation away_full)
                      ac (shortName away_full) false in
       (forall m,
           In m (Pd.merge_left (fun t => r_id (t_row t)) avg_player_id df
                   [mk_avg 1; mk_avg 1; mk_avg 3]) ->
           In (fst m) df)
       /\ (forall t,
              In t df ->
              In t (map fst
                      (Pd.merge_left (fun t => r_id (t_row t)) avg_player_id
                         df [mk_avg 1; mk_avg 1; mk_avg 3]))).
Proof.
  destruct (event_rows_are_team_frames home_short away_full unbound
              (snd (finished_event home_short away_full unbound))
              (Pd.merge_left (fun t => r_id (t_row t)) avg_player_id
                 (create_team_df (players home_short) (formation home_short)
                    {| n_def := 4; n_mid_0 := 0; n_mid_1 := 4; n_mid_2 := 0;
                       n_ata := 2 |} (shortName home_short) true
                  ++ create_team_df (players away_full) (formation away_full)
                       {| n_def := 4; n_mid_0 := 0; n_mid_1 := 3;
                          n_mid_2 := 0; n_ata := 3 |}
                       (shortName away_full) false)
                 [mk_avg 1; mk_avg 1; mk_avg 3]) eq_refl)
    as (hc & ac & Eh & Ea & P).
  exists hc, ac. injection Eh as <-. injection Ea as <-.
  split; [reflexivity|]. split; [reflexivity|]. exact P.
Defined.

Lemma r_pos_player_row (c : counts) (j : nat) (p : player) :
  r_pos (player_row c j p)
  = pos_of (resolve c (Z.of_nat j + 1) (substitute p)).
Proof.
  unfold player_row.
  now destruct (resolve c (Z.of_nat j + 1) (substitute p)) as [[line lat] pos].
Qed.

(** The position code of a row follows from its line. *)
Lemma player_row_codes (c : counts) (j : nat) (p : player) :
  let r := player_row c j p in
  on_pos "POR" r = on_line "por" r
  /\ on_pos "DEF" r = on_line "def" r
  /\ on_pos "MED" r
     = on_line "mid_0" r || on_line "mid_1" r || on_line "mid_2" r
  /\ on_pos "ATA" r = on_line "ata" r.
Proof.
  cbv zeta. unfold on_pos, on_line.
  rewrite r_pos_player_row, r_line_player_row.
  unfold resolve, determine_position.
  repeat match goal with
    | |- context [?x =? ?y] => destruct (Z.eqb_spec x y)
    | |- context [?x <=? ?y] => destruct (Z.leb_spec x y)
    end;
    cbn [pos_of line_of fst snd]; try (now repeat split).
  destruct ((11 <? Z.of_nat j + 1) && substitute p);
    [|destruct ((11 <? Z.of_nat j + 1) && negb (substitute p))];
    now repeat split.
Qed.

Lemma on_line_exclusive (l l' : string) (r : lineup_row) :
  l <> l' -> on_line l r = true -> on_line l' r = false.
Proof.
  unfold on_line. destruct (r_line r) as [x|]; [|discriminate].
  intros N H. apply String.eqb_eq in H. subst x. now apply String.eqb_neq.
Qed.

Lemma count_pos_by_line (c : counts) (ps : list player) :
  forall j,
    let rows := team_data c j ps in
    count_pos "POR" rows = count_line "por" rows
    /\ count_pos "DEF" rows = count_line "def" rows
    /\ count_pos "MED" rows
       = count_line "mid_0" rows + count_line "mid_1" rows
         + count_line "mid_2" rows
    /\ count_pos "ATA" rows = count_line "ata" rows.
Proof.
  cbv zeta. unfold count_pos, count_line.
  induction ps as [|p ps IH]; intros j; cbn [team_data filter];
    [now repeat split|].
  destruct (IH (S j)) as (Hp & Hd & Hm & Ha).
  destruct (player_row_codes c j p) as (-> & -> & -> & ->).
  pose proof (on_line_exclusive "mid_0" "mid_1" (player_row c j p)) as X01.
  pose proof (on_line_exclusive "mid_0" "mid_2" (player_row c j p)) as X02.
  pose proof (on_line_exclusive "mid_1" "mid_2" (player_row c j p)) as X12.
  destruct (on_line "por" (player_row c j p));
    destruct (on_line "def" (player_row c j p));
    destruct (on_line "ata" (player_row c j p));
    destruct (on_line "mid_0" (player_row c j p));
    destruct (on_line "mid_1" (player_row c j p));
    destruct (on_line "mid_2" (player_row c j p));
    try (specialize (X01 ltac:(discriminate) eq_refl); discriminate X01);
    try (specialize (X02 ltac:(discriminate) eq_refl); discriminate X02);
    try (specialize (X12 ltac:(discriminate) eq_refl); discriminate X12);
    cbn [orb List.length]; repeat split; lia.
Qed.

(** X20: for a team of at least 1 + def + mid0 + mid1 + mid2 + ata
    players and non-negative counts, the columns [defense], [midfield]
    and [attack] of [create_team_df] are the numbers of its rows with code
    ['DEF'], ['MED'] and ['ATA'], and exactly one row has code ['POR']. *)
Theorem team_columns_count_codes :
  forall (ps : list player) (f : string) (c : counts) (team_name : string)
         (is_home : bool),
    counts_nonneg c ->
    1 + outfield c <= Z.of_nat (List.length ps) ->
    let df := create_team_df ps f c team_name is_home in
    let rows := map t_row df in
    count_pos "POR" rows = 1
    /\ forall t, In t df ->
                 t_defense t = count_pos "DEF" rows
                 /\ t_midfield t = count_pos "MED" rows
                 /\ t_attack t = count_pos "ATA" rows.
Proof.
  intros ps f c team_name is_home Hc Hn. cbv zeta. unfold create_team_df.
  rewrite map_map. cbn [with_team_columns t_row]. rewrite map_id.
  destruct (count_pos_by_line c ps 0) as (Hp & Hd & Hm & Ha).
  rewrite Hp, Hd, Hm, Ha.
  rewrite !count_line_group by (unfold lines; cbn; tauto || assumption).
  split; [reflexivity|].
  intros t Ht. apply in_map_iff in Ht as (r & <- & _). now repeat split.
Qed.

Lemma team_columns_count_codes_witness :
  let df := create_team_df eleven "4-2-3-1" c_4_2_3_1 "team" true in
  let rows := map t_row df in
  count_pos "POR" rows = 1
  /\ forall t, In t df ->
               t_defense t = count_pos "DEF" rows
               /\ t_midfield t = count_pos "MED" rows
               /\ t_attack t = count_pos "ATA" rows.
Proof.
  apply (team_columns_count_codes eleven "4-2-3-1" c_4_2_3_1 "team" true).
  - unfold counts_nonneg, c_4_2_3_1. cbn. lia.
  - vm_compute. discriminate.
Defined.

(** X21: a finished event whose formations are read and whose samples
    carry the roster's player identifiers index by index returns rows that
    all have their averages; if the identifiers of the match are pairwise
    distinct, the rows are exactly the home rows followed by the away rows,
    one per roster entry. *)
Theorem aligned_event_complete :
  forall (home away : side) (st : locals) (hc ac : counts),
    formation_counts (formation home) = Ok hc ->
    formation_counts (formation away) = Ok ac ->
    map avg_player_id (average_positions home) = map id (players home) ->
    map avg_player_id (average_positions away) = map id (players away) ->
    exists rows,
      fst (finished_event home away st) = Ok rows
      /\ (forall m, In m rows ->
                    m_averageX m <> None /\ m_averageY m <> None
                    /\ m_pointsCount m <> None)
      /\ (NoDup (map id (players home) ++ map id (players away)) ->
          map fst rows
          = create_team_df (players home) (formation home) hc
              (shortName home) true
            ++ create_team_df (players away) (formation away) ac
                 (shortName away) false).
Proof.
  intros home away st hc ac Hh Ha Ih Ia.
  destruct (aligned_event_rows home away st hc ac Hh Ha Ih Ia)
    as (rows & E & S & N).
  exists rows. split; [exact E|]. split; [|exact N].
  intros m Hm. specialize (S m Hm).
  unfold m_averageX, m_averageY, m_pointsCount.
  destruct (snd m); [repeat split; discriminate | now elim S].
Qed.

Lemma aligned_event_complete_witness :
  exists rows,
    fst (finished_event home_two_groups away_full unbound) = Ok rows
    /\ (forall m, In m rows ->
                  m_averageX m <> None /\ m_averageY m <> None
                  /\ m_pointsCount m <> None)
    /\ (NoDup (map id (players home_two_groups)
               ++ map id (players away_full)) ->
        map fst rows
        = create_team_df (players home_two_groups)
            (formation home_two_groups)
            {| n_def := 4; n_mid_0 := 0; n_mid_1 := 4; n_mid_2 := 0;
               n_ata := 4 |} (shortName home_two_groups) true
          ++ create_team_df (players away_full) (formation away_full)
               {| n_def := 4; n_mid_0 := 0; n_mid_1 := 3; n_mid_2 := 0;
                  n_ata := 3 |} (shortName away_full) false).
Proof.
  apply (aligned_event_complete home_two_groups away_full unbound);
    reflexivity.
Defined.

Lemma event_step_sampled (ev : event) (dfs : list (list merged_row))
    (st : locals) :
  well_sampled ev = true ->
  fst (event_step ev dfs st) = dfs ++ sampled_frame ev.
Proof.
  destruct ev as [e| |home away]; cbn [event_step sampled_frame well_sampled];
    try (intros _; now rewrite app_nil_r).
  intros W. apply andb_true_iff in W as [Wh Wa].
  apply Nat.leb_le in Wh, Wa.
  destruct (formation_counts (formation home)) as [hc|e] eqn:Eh.
  - destruct (formation_counts (formation away)) as [ac|e] eqn:Ea.
    + pose proof (finished_event_aligned home away st hc ac Eh Ea Wh Wa) as F.
      destruct (finished_event home away st) as [[df|e] st'];
        cbn [fst] in *; [now injection F as -> | discriminate].
    + unfold finished_event. rewrite Eh, Ea. cbn. now rewrite app_nil_r.
  - unfold finished_event. rewrite Eh. cbn. now rewrite app_nil_r.
Qed.

Lemma events_loop_sampled (events : list event) :
  forallb well_sampled events = true ->
  forall dfs st,
    fst (events_loop events dfs st) = dfs ++ flat_map sampled_frame events.
Proof.
  induction events as [|ev rest IH]; intros W dfs st;
    cbn [events_loop flat_map forallb] in *.
  - now rewrite app_nil_r.
  - apply andb_true_iff in W as [Wev Wrest].
    pose proof (event_step_sampled ev dfs st Wev) as E.
    destruct (event_step ev dfs st) as [dfs' st']. cbn [fst] in E.
    rewrite (IH Wrest), E. now rewrite app_assoc.
Qed.

(** X22: when every finished event of a batch has samples for all its
    players, the result of [get_lineups_from_events] is the concatenation,
    in event order, of the frames of the finished events with readable
    formations; failed, unfinished and rejected events add nothing. *)
Theorem lineups_batch_concatenates :
  forall events : list event,
    forallb well_sampled events = true ->
    get_lineups_from_events events
    = Pd.concat (flat_map sampled_frame events).
Proof.
  intros events W. unfold get_lineups_from_events.
  pose proof (events_loop_sampled events W [] unbound) as E.
  destruct (events_loop events [] unbound) as [dfs st]. cbn [fst] in E.
  now rewrite E.
Qed.

Lemma lineups_batch_concatenates_witness :
  get_lineups_from_events
    [Finished home_two_groups away_full; Failed RequestException;
     Finished home_bad_group away_full; Unfinished;
     Finished away_full home_two_groups]
  = Pd.concat
      (flat_map sampled_frame
         [Finished home_two_groups away_full; Failed RequestException;
          Finished home_bad_group away_full; Unfinished;
          Finished away_full home_two_groups]).
Proof.
  apply (lineups_batch_concatenates
           [Finished home_two_groups away_full; Failed RequestException;
            Finished home_bad_group away_full; Unfinished;
            Finished away_full home_two_groups]).
  reflexivity.
Defined.

(** ** Events of a league *)

Example read_round_examples :
  map read_round [["Round 12"; "x"]; ["Ronda 3"]; []; [""; "Round 2"];
                  ["Group A"; "Round 5"]]
  = [Ok (Some 12); Ok (Some 3); Ok None; Ok None; Raise ValueError].
Proof. reflexivity. Qed.

Lemma endswith_app (suffix s : string) : Py.endswith suffix (s ++ suffix) = true.
Proof.
  induction s as [|c r IH].
  - cbn [append]. destruct suffix; cbn; [reflexivity|].
    now rewrite Ascii.eqb_refl, String.eqb_refl.
  - change (String c r ++ suffix)%string with (String c (r ++ suffix)).
    cbn [Py.endswith]. rewrite IH. apply orb_true_r.
Qed.

(** X23: the URL that [get_events_from_league] opens always ends with
    [',tab:matches'], starts with the URL it was given, and is left as it
    is when it is normalised a second time. *)
Theorem matches_url_normal :
  forall league_url : string,
    Py.endswith matches_tab (matches_url league_url) = true
    /\ String.prefix league_url (matches_url league_url) = true
    /\ matches_url (matches_url league_url) = matches_url league_url.
Proof.
  intros url.
  assert (E : Py.endswith matches_tab (matches_url url) = true).
  { unfold matches_url.
    destruct (Py.endswith matches_tab url) eqn:H; cbn [negb];
      [exact H | apply endswith_app]. }
  split; [exact E|]. split.
  - unfold matches_url. destruct (Py.endswith matches_tab url); cbn [negb].
    + rewrite <- (prefix_self_app url ""). f_equal.
      clear. induction url as [|c r IH]; cbn; [easy | now rewrite <- IH].
    + apply prefix_self_app.
  - unfold matches_url at 1. now rewrite E.
Qed.

Lemma word_is_not_sentinel (text word : string) :
  Py.index_last (Py.split " " text) = Ok word ->
  String.eqb word "Not found" = false.
Proof.
  intros H. apply index_last_In in H.
  pose proof (split_all_chars " " text) as F. rewrite Forall_forall in F.
  specialize (F word H). apply String.eqb_neq. intros ->. discriminate F.
Qed.

(** X24: the test ['Round' or 'Ronda' in round_text] holds for every
    text, so the round is read from the first item whatever the items
    after it say: an empty first text ends the loop, and otherwise the
    round number is [int] of the last word of the first text, which is
    never taken for the ['Not found'] mark. *)
Theorem round_read_from_first_item :
  forall (round_text : string) (rest : list string),
    (round_text = "" -> read_round (round_text :: rest) = Ok None)
    /\ (round_text <> "" ->
        exists word,
          Py.index_last (Py.split " " round_text) = Ok word
          /\ read_round (round_text :: rest)
             = (round_number <- Py.int word ;; Ok (Some round_number))).
Proof.
  intros round_text rest. split.
  - now intros ->.
  - intros N.
    assert (S : select_round (round_text :: rest) = Some round_text)
      by reflexivity.
    unfold read_round. rewrite S. cbn [current_round_number].
    unfold truthy. apply String.eqb_neq in N. rewrite N. cbn [negb].
    destruct (index_last_ok (Py.split " " round_text) (split_nonempty _ _))
      as (word & E & _).
    exists word. split; [exact E|]. rewrite E. cbn [Py.bind].
    now rewrite (word_is_not_sentinel round_text word E).
Qed.

Lemma round_read_from_first_item_witness :
  read_round ["" ; "Round 2"] = Ok None
  /\ exists word,
       Py.index_last (Py.split " " "Group A") = Ok word
       /\ read_round ["Group A"; "Round 5"]
          = (round_number <- Py.int word ;; Ok (Some round_number)).
Proof.
  split.
  - apply (proj1 (round_read_from_first_item "" ["Round 2"])). reflexivity.
  - apply (proj2 (round_read_from_first_item "Group A" ["Round 5"])).
    discriminate.
Defined.
